(** * Phenology pipeline: extraction, per-pixel trends, zonal means

    A shallow embedding of the numerical core of the repository:

    - [scripts/extract_phenology.py]: the method calls of
      [extract_phenology_for_year] as the Earth Engine client resolves them
      ([Client]), the per-pixel dataflow its lines describe, image by image
      ([Phenology]: peak, amplitude, threshold, SOS, EOS), and the bands of
      the harmonic fit ([Harmonic], [Bands]);
    - [scripts/analyze_phenology.py]: the joint validity mask and the
      per-pixel least-squares slope;
    - [scripts/analyze_phenology_by_veg.py]: the clean-up of the pixel
      table and the per-class means;
    - [download_zonal_ndvi.py] and [scripts/perform_trend_analysis.py]: the
      rows of the zonal table and the loop of the trend tests, with the
      test itself as a parameter;
    - [preprocess_timeseries.py]: the filling of missing values and the
      clipping of the smoothed columns, with the filter as a parameter;
    - [download_gee_data.py]: the monthly collections.

    Predicted NDVI values and slopes are exact rationals ([Q]); rounding of
    binary floating point is not modelled.  A NaN is [None]. *)

From Stdlib Require Import String Ascii DecimalString.
From Stdlib Require Import ZArith QArith Qminmax List Bool Lia Field.
From Stdlib Require Import Sorted Permutation.
Import ListNotations.

Local Open Scope Z_scope.

(** ** Small option monad, used for "masked" results of reducers *)

Definition bind {A B : Type} (o : option A) (k : A -> option B) : option B :=
  match o with
  | Some a => k a
  | None => None
  end.

Notation "x <- o ;; k" := (bind o (fun x => k))
  (at level 61, o at next level, right associativity).

(** ** scripts/extract_phenology.py: the calls of the client

    [extract_phenology_for_year] builds its result by method calls on
    objects of the Earth Engine client.  A call [obj.m(args)] of Python
    first looks the attribute [m] up on [obj], which raises
    [AttributeError] when the class of [obj] has none, then evaluates the
    arguments, then calls.  The model follows every method call of the
    function in that order, with each object reduced to its class; the
    values are computed on the server and play no part in it. *)

Module Client.

(** The classes of the client that the function handles.  [ComputedObject]
    is the element that [ee.List.map] hands to its function. *)
Inductive kind : Type :=
| Image | ImageCollection | Number | Date | List | ComputedObject.

Inductive outcome (A : Type) : Type :=
| Returned (a : A)
| AttributeError (receiver : kind) (attribute : string).

Arguments Returned {A} a.
Arguments AttributeError {A} receiver attribute.

Definition then_ {A B : Type} (o : outcome A) (k : A -> outcome B) : outcome B :=
  match o with
  | Returned a => k a
  | AttributeError receiver attribute => AttributeError receiver attribute
  end.

Notation "x <~ o ;; k" := (then_ o (fun x => k))
  (at level 61, o at next level, right associativity).

Definition among (name : string) (names : list string) : bool :=
  existsb (String.eqb name) names.

Section Methods.

(** Whether the class [ee.Number] has an attribute [rename], which lines 35
    and 78 ask of it.  The properties hold either way. *)
Variable number_rename : bool.

(** The methods of each class, among the names that the function asks
    for, with the class of what they return; after the reference of the
    client library.  The arithmetic, the comparisons, [where] and the band
    operations are methods of images, not of collections. *)
Definition attribute (k : kind) (name : string) : option kind :=
  match k with
  | Image =>
      if among name ["select"; "rename"; "addBands"; "float"; "int16"; "set";
                     "multiply"; "add"; "subtract"; "min"; "sin"; "cos";
                     "gt"; "lt"; "eq"; "where"; "reduce"]%string
      then Some Image
      else if among name ["date"]%string then Some Date
      else None
  | ImageCollection =>
      if among name ["select"; "filterDate"; "map"; "set"]%string
      then Some ImageCollection
      else if among name ["reduce"; "min"; "qualityMosaic"]%string
      then Some Image
      else None
  | Number =>
      if among name ["multiply"; "add"; "subtract"; "min"; "sin"; "cos";
                     "gt"; "lt"; "eq"; "float"; "int16"]%string
      then Some Number
      else if among name ["rename"]%string
      then (if number_rename then Some Number else None)
      else None
  | Date =>
      if among name ["difference"]%string then Some Number
      else if among name ["advance"]%string then Some Date
      else None
  | List =>
      if among name ["map"; "add"]%string then Some List
      else if among name ["reduce"]%string then Some ComputedObject
      else None
  | ComputedObject => None
  end.

(** [obj.name(...)] with arguments that are variables or literals. *)
Definition call (obj : kind) (name : string) : outcome kind :=
  match attribute obj name with
  | Some k => Returned k
  | None => AttributeError obj name
  end.

(** [obj.name(args)]: the attribute first, then the arguments. *)
Definition call_with (obj : kind) (name : string) (args : outcome kind)
  : outcome kind :=
  r <~ call obj name ;; _ <~ args ;; Returned r.

(** [collection.map(f)]: the client builds the mapped function at once, by
    running [f] on a placeholder element. *)
Definition map_with (collection element : kind) (f : kind -> outcome kind)
  : outcome kind :=
  call_with collection "map" (f element).

(** Lines 30-35. *)
Definition add_time_bands (image : kind) : outcome kind :=
  date <~ call image "date" ;;
  years_since_epoch <~ call date "difference" ;;
  time_radians <~ call years_since_epoch "multiply" ;;
  call_with image "addBands"
    (t <~ call time_radians "rename" ;; call t "float").

(** Lines 40-43, once per harmonic. *)
Fixpoint add_harmonic_pairs (time_radians image : kind) (harmonics : nat)
  : outcome kind :=
  match harmonics with
  | O => Returned image
  | S n =>
      sin <~ (a <~ call time_radians "multiply" ;; b <~ call a "sin" ;;
              call b "rename") ;;
      cos <~ (a <~ call time_radians "multiply" ;; b <~ call a "cos" ;;
              call b "rename") ;;
      image <~ (i <~ call image "addBands" ;; call i "addBands") ;;
      add_harmonic_pairs time_radians image n
  end.

(** Lines 37-44, with [harmonics = 3]. *)
Definition add_harmonic_bands (image : kind) : outcome kind :=
  time_radians <~ call image "select" ;;
  add_harmonic_pairs time_radians image 3.

(** Lines 53-60. *)
Definition ndvi_collection : outcome kind :=
  c <~ call ImageCollection "select" ;;
  c <~ call c "filterDate" ;;
  c <~ map_with c Image (fun img => call img "multiply") ;;
  c <~ map_with c Image add_time_bands ;;
  map_with c Image add_harmonic_bands.

(** Lines 68-70. *)
Definition harmonic_fit (ndvi_collection : kind) : outcome kind :=
  selected <~ call ndvi_collection "select" ;;
  call selected "reduce".

(** Lines 74-85; [start_date] is an [ee.Date], [ee.Number(day)] an
    [ee.Number], [ee.Image(1)] and [ee.Image(day)] are images. *)
Definition create_daily_image (harmonic_fit day : kind) : outcome kind :=
  date <~ call_with Date "advance" (call Number "subtract") ;;
  time_radians <~ (d <~ call Date "difference" ;; call d "multiply") ;;
  image <~ call_with Image "addBands"
             (t <~ call time_radians "rename" ;; call t "float") ;;
  image <~ (i <~ add_harmonic_bands image ;; call i "select") ;;
  predicted_ndvi <~ (m <~ call_with image "multiply" (call harmonic_fit "select") ;;
                     s <~ call m "reduce" ;; call s "rename") ;;
  call_with predicted_ndvi "addBands"
    (d <~ call Image "rename" ;; call d "int16").

(** Line 87; [days_of_year] is an [ee.List], and
    [ee.ImageCollection.fromImages] gives a collection. *)
Definition daily_smoothed_collection (harmonic_fit : kind) : outcome kind :=
  _ <~ map_with List ComputedObject (create_daily_image harmonic_fit) ;;
  Returned ImageCollection.

(** Line 102. *)
Definition greenup_phase (daily_smoothed_collection : kind) : outcome kind :=
  map_with daily_smoothed_collection Image
    (fun img => s <~ call img "select" ;; call s "gt").

(** Line 105: [where] is asked of what [select] returns on the collection
    [greenup_phase]. *)
Definition sos_image (greenup_phase : kind) : outcome kind :=
  g <~ call greenup_phase "select" ;;
  call_with g "where" (g' <~ call greenup_phase "select" ;; call g' "eq").

(** Lines 102-106. *)
Definition sos_doy (daily_smoothed_collection : kind) : outcome kind :=
  greenup_phase <~ greenup_phase daily_smoothed_collection ;;
  sos_image <~ sos_image greenup_phase ;;
  m <~ call_with sos_image "multiply" (call daily_smoothed_collection "select") ;;
  n <~ call m "min" ;;
  call n "rename".

(** Line 109. *)
Definition senescence_phase (daily_smoothed_collection : kind) : outcome kind :=
  map_with daily_smoothed_collection Image
    (fun img => s <~ call img "select" ;; call s "lt").

(** Line 110. *)
Definition eos_image (senescence_phase : kind) : outcome kind :=
  g <~ call senescence_phase "select" ;;
  call_with g "where" (g' <~ call senescence_phase "select" ;; call g' "eq").

(** Lines 109-111. *)
Definition eos_doy (daily_smoothed_collection : kind) : outcome kind :=
  senescence_phase <~ senescence_phase daily_smoothed_collection ;;
  eos_image <~ eos_image senescence_phase ;;
  m <~ call_with eos_image "multiply" (call daily_smoothed_collection "select") ;;
  n <~ call m "min" ;;
  s <~ call n "subtract" ;;
  call s "rename".

(** Lines 47-113.  The year enters as data only, so no call depends on
    it. *)
Definition extract_phenology_for_year (year : Z) : outcome kind :=
  ndvi_collection <~ ndvi_collection ;;
  harmonic_fit <~ harmonic_fit ndvi_collection ;;
  daily_smoothed_collection <~ daily_smoothed_collection harmonic_fit ;;
  quality_band <~ call daily_smoothed_collection "qualityMosaic" ;;
  peak_doy <~ (s <~ call quality_band "select" ;; call s "rename") ;;
  max_ndvi <~ call quality_band "select" ;;
  min_ndvi <~ (s <~ call daily_smoothed_collection "select" ;; call s "min") ;;
  amplitude <~ call max_ndvi "subtract" ;;
  threshold <~ call_with min_ndvi "add" (call amplitude "multiply") ;;
  sos_doy <~ sos_doy daily_smoothed_collection ;;
  eos_doy <~ eos_doy daily_smoothed_collection ;;
  r <~ call sos_doy "addBands" ;;
  r <~ call r "addBands" ;;
  call r "set".

End Methods.

End Client.

(** ** scripts/extract_phenology.py: the dataflow, image by image

    The values that lines 92-111 describe at one pixel.  Lines 105, 106, 110
    and 111 ask [where], [eq] and [multiply] of a collection, which the
    client does not have ([Client.sos_image], [Client.eos_image]); they are
    taken here at each image of the collection, as the comments of the
    script have it ("SOS: first day when smoothed NDVI > threshold").  This
    is the reading most favourable to the code, used where a claim fails
    even so. *)

Module Phenology.

(** One pixel of one image of [daily_smoothed_collection]: the predicted
    NDVI and the [doy] band. *)
Record image : Type := mkImage { NDVI : Q; doy : Z }.

(** [amplitude_threshold = 0.5] *)
Definition amplitude_threshold : Q := 1 # 2.

(** [ee.List.sequence(1, n)] *)
Definition sequence_from_1 (n : nat) : list Z := map Z.of_nat (seq 1 n).

(** [days_of_year = ee.List.sequence(1, 365)] *)
Definition days_of_year : list Z := sequence_from_1 365.

(** [create_daily_image]: the harmonic prediction for the day, with the day
    itself as band [doy].  [predict] is the reconstructed daily curve. *)
Definition create_daily_image (predict : Z -> Q) (day : Z) : image :=
  {| NDVI := predict day; doy := day |}.

Definition collection_of (predict : Z -> Q) (days : list Z) : list image :=
  map (create_daily_image predict) days.

(** [daily_smoothed_collection = fromImages(days_of_year.map(create_daily_image))] *)
Definition daily_smoothed_collection (predict : Z -> Q) : list image :=
  collection_of predict days_of_year.

(** [ImageCollection.min()] on one band; an empty collection gives a masked
    pixel. *)
Definition reduce_min_Q (l : list Q) : option Q :=
  match l with
  | [] => None
  | x :: r => Some (fold_left Qmin r x)
  end.

Definition reduce_min_Z (l : list Z) : option Z :=
  match l with
  | [] => None
  | x :: r => Some (fold_left Z.min r x)
  end.

(** Modelled from the spec: [ImageCollection.qualityMosaic] is a primitive
    of the Earth Engine platform, whose code is not in the repository.  It
    keeps, per pixel, the image with the greatest value of the quality
    band; following the specification ("first occurrence on ties") an image
    replaces the current best one only when its quality is strictly
    greater. *)
Definition better (best img : image) : image :=
  if Qlt_le_dec (NDVI best) (NDVI img) then img else best.

Definition qualityMosaic (c : list image) : option image :=
  match c with
  | [] => None
  | i :: r => Some (fold_left better r i)
  end.

(** [peak_doy = quality_band.select('doy')] *)
Definition peak_doy (c : list image) : option Z :=
  option_map doy (qualityMosaic c).

(** [max_ndvi = quality_band.select('NDVI')] *)
Definition max_ndvi (c : list image) : option Q :=
  option_map NDVI (qualityMosaic c).

(** [min_ndvi = daily_smoothed_collection.select('NDVI').min()] *)
Definition min_ndvi (c : list image) : option Q :=
  reduce_min_Q (map NDVI c).

(** [amplitude = max_ndvi.subtract(min_ndvi)] *)
Definition amplitude (c : list image) : option Q :=
  mx <- max_ndvi c ;; mn <- min_ndvi c ;; Some (mx - mn)%Q.

(** [threshold = min_ndvi.add(amplitude.multiply(amplitude_threshold))] *)
Definition threshold (c : list image) : option Q :=
  mn <- min_ndvi c ;; a <- amplitude c ;;
  Some (mn + a * amplitude_threshold)%Q.

(** [Image.gt], [Image.lt]: 1 where the comparison holds, 0 elsewhere. *)
Definition gt (a b : Q) : Z := if Qlt_le_dec b a then 1 else 0.
Definition lt (a b : Q) : Z := if Qlt_le_dec a b then 1 else 0.

(** [Image.where], at one pixel: [x.where(test, value)] is [value] where
    [test] is non-zero, [x] elsewhere. *)
Definition where_ (x test value : Z) : Z :=
  if test =? 0 then x else value.

(** [Image.eq(0)], at one pixel. *)
Definition eq0 (x : Z) : Z := if x =? 0 then 1 else 0.

(** [Image.multiply], at one pixel. *)
Definition multiply (a b : Z) : Z := a * b.

(** A method of images asked of a collection, with another collection as
    argument (lines 106, 111), where the client raises: here the method is
    applied to the two images of the same day. *)
Definition image_by_image (method : Z -> Z -> Z) (a b : list Z) : list Z :=
  map (fun p => method (fst p) (snd p)) (combine a b).

(** [greenup_phase = collection.map(img => img.select('NDVI').gt(threshold))] *)
Definition greenup_phase (c : list image) (th : Q) : list Z :=
  map (fun img => gt (NDVI img) th) c.

(** Line 105, [sos_image = greenup_phase.where(greenup_phase.eq(0), 1000)],
    image by image: the script asks [where] and [eq] of the collection,
    where the client raises; here they are applied to each of its images. *)
Definition sos_image (c : list image) (th : Q) : list Z :=
  map (fun g => where_ g (eq0 g) 1000) (greenup_phase c th).

(** Line 106, [sos_doy = sos_image.multiply(collection.select('doy')).min()],
    image by image. *)
Definition sos_doy (c : list image) : option Z :=
  th <- threshold c ;;
  reduce_min_Z (image_by_image multiply (sos_image c th) (map doy c)).

(** [senescence_phase = collection.map(img => img.select('NDVI').lt(threshold))] *)
Definition senescence_phase (c : list image) (th : Q) : list Z :=
  map (fun img => lt (NDVI img) th) c.

(** Line 110, [eos_image = senescence_phase.where(senescence_phase.eq(0), 1000)],
    image by image, as line 105. *)
Definition eos_image (c : list image) (th : Q) : list Z :=
  map (fun g => where_ g (eq0 g) 1000) (senescence_phase c th).

(** Line 111,
    [eos_doy = eos_image.multiply(collection.select('doy')).min().subtract(1)],
    image by image. *)
Definition eos_doy (c : list image) : option Z :=
  th <- threshold c ;;
  m <- reduce_min_Z (image_by_image multiply (eos_image c th) (map doy c)) ;;
  Some (m - 1).

(** Whether the value of an image exceeds the threshold. *)
Definition exceeds (th : Q) (img : image) : bool :=
  if Qlt_le_dec th (NDVI img) then true else false.

(** The three bands of the phenology image of a year, as
    [analyze_phenology.py] reads them at one pixel. *)
Record phenology : Type := mkPhenology { sos : Z; eos : Z; peak : Z }.

(** A day of year of the data model: an integer in [1, 366]. *)
Definition is_doy (d : Z) : bool := (1 <=? d) && (d <=? 366).

(** *** The readings of the specification, to compare with the code *)


(** Descending scan from the last day down to [peak]: the first day met
    whose value exceeds the threshold, that is the last such day. *)
Definition last_exceeding_down_to (c : list image) (th : Q) (pk : Z) : option Z :=
  option_map doy (find (exceeds th) (rev (filter (fun img => pk <=? doy img) c))).

End Phenology.

(** ** Floating-point values with NaN, as exact rationals *)

Module Float.

(** A float is a rational or NaN ([None]).  Arithmetic propagates NaN. *)
Definition float : Type := option Q.

Definition nan : float := None.

Definition isnan (x : float) : bool :=
  match x with
  | None => true
  | Some _ => false
  end.

Definition lift2 (op : Q -> Q -> Q) (a b : float) : float :=
  match a, b with
  | Some x, Some y => Some (op x y)
  | _, _ => None
  end.

Definition fadd : float -> float -> float := lift2 Qplus.
Definition fsub : float -> float -> float := lift2 Qminus.
Definition fmul : float -> float -> float := lift2 Qmult.

(** In the runs modelled here a zero divisor only meets a zero dividend
    ([0/0], a NaN). *)
Definition fdiv (a b : float) : float :=
  match a, b with
  | Some x, Some y => if Qeq_bool y 0 then None else Some (x / y)%Q
  | _, _ => None
  end.

Definition of_nat (n : nat) : Q := inject_Z (Z.of_nat n).

(** [np.sum] *)
Definition fsum (l : list float) : float :=
  fold_right fadd (Some 0%Q) l.

(** [np.mean]: a NaN in the input gives NaN. *)
Definition fmean (l : list float) : float :=
  fdiv (fsum l) (Some (of_nat (length l))).

(** The sum of a list without NaN. *)
Definition sumQ (l : list Q) : Q := fold_right Qplus 0%Q l.

End Float.

(** ** scripts/analyze_phenology.py *)

Module Trend.
Import Float.

(** [valid_mask = (sos_ts > 0) & (sos_ts < 366) & (eos_ts > 0) & (eos_ts < 366)] *)
Definition valid_mask (sos_v eos_v : Z) : bool :=
  (0 <? sos_v) && (sos_v <? 366) && (0 <? eos_v) && (eos_v <? 366).

(** [np.where(valid_mask, x, np.nan)] *)
Definition np_where (m : bool) (x : Z) : float :=
  if m then Some (inject_Z x) else nan.

(** The three masked series at one pixel and one year. *)
Record masked : Type := mkMasked { sos_ts : float; eos_ts : float; peak_ts : float }.

Definition apply_mask (p : Phenology.phenology) : masked :=
  let m := valid_mask (Phenology.sos p) (Phenology.eos p) in
  {| sos_ts := np_where m (Phenology.sos p);
     eos_ts := np_where m (Phenology.eos p);
     peak_ts := np_where m (Phenology.peak p) |}.

(** [np.arange(n)] *)
Definition arange (n : nat) : list Q := map of_nat (seq 0 n).

(** [np.count_nonzero(~np.isnan(series))] *)
Definition count_valid (series : list float) : nat :=
  length (filter (fun v => negb (isnan v)) series).

Inductive result (A : Type) : Type :=
| Ok (a : A)
| ValueError (msg : string).
Arguments Ok {A} a.
Arguments ValueError {A} msg.

Definition amax (x : list Q) : Q :=
  match x with
  | [] => 0%Q
  | a :: r => fold_left Qmax r a
  end.

Definition amin (x : list Q) : Q :=
  match x with
  | [] => 0%Q
  | a :: r => fold_left Qmin r a
  end.

(** [np.cov(x, y, bias=1)]: the entries used by [linregress],
    [ssxm = mean((x - xmean)^2)] and [ssxym = mean((x - xmean) * (y - ymean))]. *)
Definition ssxm_of (x : list Q) (xmean : float) : float :=
  fmean (map (fun a => fmul (fsub (Some a) xmean) (fsub (Some a) xmean)) x).

Definition ssxym_of (x : list Q) (y : list float) (xmean ymean : float) : float :=
  fmean (map (fun p => fmul (fsub (Some (fst p)) xmean) (fsub (snd p) ymean))
             (combine x y)).

(** [scipy.stats.linregress(x, y).slope].  The year axis [x] never holds a
    NaN (it is an [np.arange]); the series [y] may. *)
Definition linregress_slope (x : list Q) (y : list float) : result float :=
  if ((length x =? 0) || (length y =? 0))%nat then
    ValueError "Inputs must not be empty."
  else if negb (length x =? length y)%nat then
    ValueError "all the input array dimensions must match"
  else if Qeq_bool (amax x) (amin x) && (1 <? length x)%nat then
    ValueError "Cannot calculate a linear regression if all x values are identical"
  else
    let xmean := fmean (map Some x) in
    let ymean := fmean y in
    let ssxm := ssxm_of x xmean in
    let ssxym := ssxym_of x y xmean ymean in
    Ok (fdiv ssxym ssxm).

(** The body of the pixel loop for one metric: the slope cell starts as NaN
    ([np.full(..., np.nan)]) and is assigned only behind the guard. *)
Definition pixel_slope (pixel_series : list float) : result float :=
  let years := arange (length pixel_series) in
  let slope := nan in
  if (5 <? count_valid pixel_series)%nat then
    linregress_slope years pixel_series
  else Ok slope.

(** *** The reading of the specification: least squares over the valid
    (year, value) pairs only *)

Definition valid_pairs (series : list float) : list (Q * Q) :=
  flat_map (fun p => match snd p with
                     | Some v => [(fst p, v)]
                     | None => []
                     end)
           (combine (arange (length series)) series).

Definition valid_years_slope (series : list float) : result float :=
  let vp := valid_pairs series in
  linregress_slope (map fst vp) (map (fun p => Some (snd p)) vp).

(** *** The rest of sections 2 and 3 of [main], at one pixel *)

(** [np.nanmean]: the mean of the entries that are not NaN, NaN when there
    is none. *)
Definition nanmean (l : list float) : float :=
  fmean (filter (fun v => negb (isnan v)) l).

(** The masked series of one pixel, one entry per year. *)
Definition sos_series (records : list Phenology.phenology) : list float :=
  map (fun p => sos_ts (apply_mask p)) records.

Definition eos_series (records : list Phenology.phenology) : list float :=
  map (fun p => eos_ts (apply_mask p)) records.

Definition peak_series (records : list Phenology.phenology) : list float :=
  map (fun p => peak_ts (apply_mask p)) records.



Definition mean_peak (records : list Phenology.phenology) : float :=
  nanmean (peak_series records).

(** The two slopes of the pixel loop. *)
Definition sos_slope (records : list Phenology.phenology) : result float :=
  pixel_slope (sos_series records).

Definition eos_slope (records : list Phenology.phenology) : result float :=
  pixel_slope (eos_series records).

(** [los_slope = eos_slope - sos_slope], reached when the loop has raised
    no error. *)
Definition los_slope (records : list Phenology.phenology) : result float :=
  match sos_slope records with
  | ValueError msg => ValueError msg
  | Ok s =>
      match eos_slope records with
      | ValueError msg => ValueError msg
      | Ok e => Ok (fsub e s)
      end
  end.

End Trend.

(** ** scripts/analyze_phenology_by_veg.py *)

Module Zonal.
Import Float.

(** One row of the pixel table [df]. *)
Record row : Type := mkRow {
  LC_Type_ID : Z;
  SOS_Trend : float;
  EOS_Trend : float;
  LOS_Trend : float
}.

(** The literal of the script, [[0, 13, 15, 16, 17]]. *)
Definition non_vegetation : list Z := [0; 13; 15; 16; 17].

(** [Series.isin] *)
Definition isin (x : Z) (values : list Z) : bool :=
  existsb (Z.eqb x) values.

(** [df.dropna()]: drops the rows with a NaN in any column. *)
Definition dropna (df : list row) : list row :=
  filter (fun r => negb (isnan (SOS_Trend r)) && negb (isnan (EOS_Trend r))
                   && negb (isnan (LOS_Trend r))) df.

(** Section 4 of [main].  The list of excluded classes is the argument
    [excluded]; the script passes [non_vegetation]. *)
Definition clean (lc_nodata : option Z) (trend_nodata : option float)
    (excluded : list Z) (df : list row) : list row :=
  let df1 := match lc_nodata with
             | Some nd => filter (fun r => negb (LC_Type_ID r =? nd)) df
             | None => df
             end in
  let df2 := match trend_nodata with
             | Some _ => filter (fun r => negb (isnan (SOS_Trend r))) df1
             | None => df1
             end in
  let df3 := filter (fun r => negb (isin (LC_Type_ID r) excluded)) df2 in
  dropna df3.

(** The group keys of [groupby]: sorted, without duplicates. *)
Fixpoint insert_key (k : Z) (keys : list Z) : list Z :=
  match keys with
  | [] => [k]
  | h :: t => if k <? h then k :: keys
              else if k =? h then keys
              else h :: insert_key k t
  end.

Definition group_keys (df : list row) : list Z :=
  fold_right insert_key [] (map LC_Type_ID df).

Definition group (k : Z) (df : list row) : list row :=
  filter (fun r => LC_Type_ID r =? k) df.

(** [Series.mean()] of pandas skips NaN entries. *)
Definition column_mean (col : row -> float) (g : list row) : float :=
  fmean (filter (fun v => negb (isnan v)) (map col g)).

Record means : Type := mkMeans {
  SOS_Trend_days_per_year : float;
  EOS_Trend_days_per_year : float;
  LOS_Trend_days_per_year : float
}.

Definition group_mean (g : list row) : means :=
  {| SOS_Trend_days_per_year := column_mean SOS_Trend g;
     EOS_Trend_days_per_year := column_mean EOS_Trend g;
     LOS_Trend_days_per_year := column_mean LOS_Trend g |}.

(** [df.groupby('LC_Type_ID').mean()] *)
Definition groupby_mean (df : list row) : list (Z * means) :=
  map (fun k => (k, group_mean (group k df))) (group_keys df).

(** Sections 4 and 5 of [main]; [None] is the early return on an empty
    table. *)
Definition zonal_mean (lc_nodata : option Z) (trend_nodata : option float)
    (excluded : list Z) (df : list row) : option (list (Z * means)) :=
  match clean lc_nodata trend_nodata excluded df with
  | [] => None
  | df' => Some (groupby_mean df')
  end.

(** The classes reported, none on the early return. *)
Definition reported (out : option (list (Z * means))) : list (Z * means) :=
  match out with
  | Some t => t
  | None => []
  end.

(** *** The readings of the specification *)

Definition class_ok (lc_nodata : option Z) (excluded : list Z) (c : Z) : bool :=
  match lc_nodata with
  | Some nd => negb (c =? nd)
  | None => true
  end && negb (isin c excluded).


(** As the code has it: the pixels of class [c] none of whose three trends
    is NaN. *)
Definition complete (r : row) : bool :=
  negb (isnan (SOS_Trend r)) && negb (isnan (EOS_Trend r))
  && negb (isnan (LOS_Trend r)).

Definition contributing_complete (lc_nodata : option Z) (excluded : list Z)
    (c : Z) (df : list row) : list row :=
  filter (fun r => (LC_Type_ID r =? c) && class_ok lc_nodata excluded c
                   && complete r) df.

(** Arithmetic mean of a metric over a list of pixels. *)
Definition arithmetic_mean (col : row -> float) (g : list row) : float :=
  fdiv (fsum (map col g)) (Some (of_nat (length g))).

Definition arithmetic_means (g : list row) : means :=
  {| SOS_Trend_days_per_year := arithmetic_mean SOS_Trend g;
     EOS_Trend_days_per_year := arithmetic_mean EOS_Trend g;
     LOS_Trend_days_per_year := arithmetic_mean LOS_Trend g |}.

(** *** From the trend raster of [analyze_phenology.py] to the table *)

(** The row of one pixel: its class and the three bands that
    [analyze_phenology.py] writes for it; no row when the pixel loop
    raised an error. *)
Definition trend_row (lc : Z) (records : list Phenology.phenology) : option row :=
  match Trend.sos_slope records, Trend.eos_slope records, Trend.los_slope records with
  | Trend.Ok s, Trend.Ok e, Trend.Ok l =>
      Some {| LC_Type_ID := lc; SOS_Trend := s; EOS_Trend := e; LOS_Trend := l |}
  | _, _, _ => None
  end.

(** The rows of a trend raster of [analyze_phenology.py]: the three trends
    of a pixel are numbers together or NaN together. *)
Definition nan_together (df : list row) : Prop :=
  forall r, In r df ->
    isnan (EOS_Trend r) = isnan (SOS_Trend r)
    /\ isnan (LOS_Trend r) = isnan (SOS_Trend r).


End Zonal.

(** ** The harmonic fit of scripts/extract_phenology.py *)

Module Harmonic.

(** [harmonics = 3] *)
Definition harmonics : nat := 3.

(** [f'{prefix}_{i}'] *)
Definition band (prefix : string) (i : nat) : string :=
  (prefix ++ "_" ++ NilEmpty.string_of_uint (Nat.to_uint i))%string.

(** Lines 63-65: ['constant'], extended by [cos_i, sin_i] for
    [i] in [range(1, harmonics + 1)]. *)
Definition harmonic_bands (K : nat) : list string :=
  fold_left (fun bands i => bands ++ [band "cos" i; band "sin" i])
            (seq 1 K) ["constant"%string].

(** The selectors and arity of the regression:
    [select(harmonic_bands + ['NDVI'])],
    [linearRegression(numX=len(harmonic_bands), numY=1)]. *)
Definition regression_selectors (K : nat) : list string :=
  harmonic_bands K ++ ["NDVI"%string].

Definition numX (K : nat) : nat := length (harmonic_bands K).
Definition numY : nat := 1.

(** The band names of an image after [add_time_bands] and
    [add_harmonic_bands]. *)
Definition add_time_bands (bands : list string) : list string :=
  bands ++ ["t"%string].

Definition add_harmonic_bands (K : nat) (bands : list string) : list string :=
  fold_left (fun image i => (image ++ [band "sin" i]) ++ [band "cos" i])
            (seq 1 K) bands.

End Harmonic.

(** ** The bands of the images of scripts/extract_phenology.py *)

Module Bands.
Import Harmonic.

(** One pixel of an image: its bands in order, each a name and a value. *)
Definition image : Type := list (string * Q).


(** [image.addBands(band)] *)
Definition addBands (img : image) (name : string) (v : Q) : image :=
  img ++ [(name, v)].

(** The value of the band of a given name, if the image has one. *)
Fixpoint get (name : string) (img : image) : option Q :=
  match img with
  | [] => None
  | (k, v) :: r => if String.eqb k name then Some v else get name r
  end.

(** [image.select(names)]: the named bands, in the order asked for; a name
    that matches no band is an error ([None]). *)
Fixpoint select (names : list string) (img : image) : option image :=
  match names with
  | [] => Some []
  | k :: r => v <- get k img ;; rest <- select r img ;; Some ((k, v) :: rest)
  end.

(** [collection.select(names)]: the selection on every image of the
    collection; it fails when it fails on one of them. *)
Fixpoint select_collection (names : list string) (c : list image)
  : option (list image) :=
  match c with
  | [] => Some []
  | img :: rest =>
      i <- select names img ;; r <- select_collection names rest ;; Some (i :: r)
  end.

Section Trigonometry.

(** Sine and cosine on floats. *)
Variables sin cos : Q -> Q.

(** [ee.Reducer.linearRegression(numX, numY)] on the pixels of a
    collection: the coefficients, when the platform finds any. *)
Variable linearRegression : nat -> nat -> list image -> option (list Q).

(** [add_time_bands], with the time in radians already computed. *)
Definition add_time_bands (img : image) (time_radians : Q) : image :=
  addBands img "t" time_radians.

(** [add_harmonic_bands]: reads band [t], then adds [sin_i] and [cos_i] for
    [i] in [range(1, harmonics + 1)]. *)
Definition add_harmonic_bands (K : nat) (img : image) : option image :=
  time_radians <- get "t" img ;;
  Some (fold_left
          (fun image i =>
             addBands (addBands image (band "sin" i)
                                (sin (time_radians * Float.of_nat i)))
                      (band "cos" i) (cos (time_radians * Float.of_nat i)))
          (seq 1 K) img).

(** The harmonic bands as [add_harmonic_bands] appends them. *)
Definition harmonic_part (t : Q) (l : list nat) : image :=
  flat_map (fun i => [(band "sin" i, sin (t * Float.of_nat i));
                      (band "cos" i, cos (t * Float.of_nat i))]) l.


(** The input of the regression for one observation, lines 53-60 and 68-69:
    the NDVI band with the time and harmonic bands added, then
    [select(harmonic_bands + ['NDVI'])]. *)
Definition regression_input (K : nat) (ndvi time_radians : Q) : option image :=
  img <- add_harmonic_bands K (add_time_bands [("NDVI"%string, ndvi)] time_radians) ;;
  select (regression_selectors K) img.

(** [ndvi_collection], lines 53-60, at one pixel: one image for each
    observation of the year, given by its NDVI and its time in radians. *)
Fixpoint ndvi_collection (K : nat) (observations : list (Q * Q))
  : option (list image) :=
  match observations with
  | [] => Some []
  | o :: rest =>
      img <- add_harmonic_bands K
               (add_time_bands [("NDVI"%string, fst o)] (snd o)) ;;
      r <- ndvi_collection K rest ;;
      Some (img :: r)
  end.

(** [harmonic_fit], lines 68-70: the coefficients of the regression. *)
Definition harmonic_fit (K : nat) (observations : list (Q * Q))
  : option (list Q) :=
  c <- ndvi_collection K observations ;;
  selected <- select_collection (regression_selectors K) c ;;
  linearRegression (numX K) numY selected.

End Trigonometry.

End Bands.

(** ** download_zonal_ndvi.py and scripts/perform_trend_analysis.py *)

Module TrendTable.
Import Float.

(** One row of [zonal_ndvi_by_veg_type_mentougou.csv]. *)
Record zonal_row : Type := mkZonal {
  year : Z;
  veg_type_id : Z;
  mean_ndvi : float
}.

(** [ee.List.sequence(start, end)], both ends included. *)
Definition sequence (first last : Z) : list Z :=
  map (fun k => first + Z.of_nat k) (seq 0 (Z.to_nat (last - first + 1))).

Section ZonalExport.

(** The property [groups] of the grouped reduction of a year: the class and
    the mean of each group, or null. *)
Variable groups : Z -> option (list (Z * float)).

(** [calculate_zonal_mean]: one feature per group, none when [groups] is
    null. *)
Definition calculate_zonal_mean (y : Z) : list zonal_row :=
  match groups y with
  | Some gs => map (fun g => {| year := y; veg_type_id := fst g; mean_ndvi := snd g |}) gs
  | None => []
  end.

(** [list_of_features = years.map(calculate_zonal_mean).flatten()] *)
Definition list_of_features (start_year end_year : Z) : list zonal_row :=
  flat_map calculate_zonal_mean (sequence start_year end_year).

(** The years in which a class has a group. *)
Definition years_with_class (start_year end_year c : Z) : list Z :=
  filter (fun y => match groups y with
                   | Some gs => existsb (Z.eqb c) (map fst gs)
                   | None => false
                   end)
         (sequence start_year end_year).

End ZonalExport.

(** [igbp_legend] of [perform_trend_analysis.py]. *)
Definition igbp_legend : list (Z * string) :=
  [ (1, "Evergreen Needleleaf Forest"); (2, "Evergreen Broadleaf Forest");
    (3, "Deciduous Needleleaf Forest"); (4, "Deciduous Broadleaf Forest");
    (5, "Mixed Forest"); (6, "Closed Shrublands"); (7, "Open Shrublands");
    (8, "Woody Savannas"); (9, "Savannas"); (10, "Grasslands");
    (11, "Permanent Wetlands"); (12, "Croplands"); (13, "Urban and Built-up");
    (14, "Cropland/Natural Vegetation Mosaic"); (15, "Snow and Ice");
    (16, "Barren or Sparsely Vegetated"); (17, "Water") ]%string.

(** [igbp_legend[veg_id]]; [None] is the [KeyError]. *)
Fixpoint legend_get (k : Z) (legend : list (Z * string)) : option string :=
  match legend with
  | [] => None
  | (k', name) :: rest => if k' =? k then Some name else legend_get k rest
  end.

(** [sorted(df['veg_type_id'].unique())] *)
Definition unique_veg_types (df : list zonal_row) : list Z :=
  fold_right Zonal.insert_key [] (map veg_type_id df).

(** [sort_values('year')]; the years of one class are distinct in the table
    the export writes. *)
Fixpoint insert_by_year (r : zonal_row) (l : list zonal_row) : list zonal_row :=
  match l with
  | [] => [r]
  | h :: t => if year r <=? year h then r :: l else h :: insert_by_year r t
  end.

Definition sort_values_year (l : list zonal_row) : list zonal_row :=
  fold_right insert_by_year [] l.

(** [subset = df[df['veg_type_id'] == veg_id].sort_values('year')] *)
Definition subset (veg_id : Z) (df : list zonal_row) : list zonal_row :=
  sort_values_year (filter (fun r => veg_type_id r =? veg_id) df).

Section Test.

(** [mk.original_test] of pymannkendall and the field [p] of its result. *)
Variable mk_result : Type.
Variable original_test : list float -> mk_result.
Variable p : mk_result -> Q.

(** One entry of [results]. *)
Record result_row : Type := mkResult {
  Vegetation_Type : string;
  result : mk_result;
  Significant : bool
}.

Inductive outcome : Type :=
| Results (rows : list result_row)
| KeyError (key : Z).

(** The loop over [unique_veg_types]. *)
Fixpoint analyse (veg_ids : list Z) (df : list zonal_row)
    (results : list result_row) : outcome :=
  match veg_ids with
  | [] => Results results
  | veg_id :: rest =>
      match legend_get veg_id igbp_legend with
      | None => KeyError veg_id
      | Some veg_name =>
          let sub := subset veg_id df in
          if (length sub <? 4)%nat then analyse rest df results
          else
            let r := original_test (map mean_ndvi sub) in
            analyse rest df
              (results ++ [ {| Vegetation_Type := veg_name;
                               result := r;
                               Significant := if Qlt_le_dec (p r) (5 # 100)
                                              then true else false |} ])
      end
  end.

Definition main (df : list zonal_row) : outcome :=
  analyse (unique_veg_types df) df [].

(** The classes that have at least four rows, in ascending order. *)
Definition tested_classes (df : list zonal_row) : list Z :=
  filter (fun c => Nat.leb 4 (length (filter (fun r => veg_type_id r =? c) df)))
         (unique_veg_types df).

(** What the entry of a class holds: the name of the class in the legend,
    the test of the values of the rows of the class, taken in ascending
    order of the year, and the mark of significance. *)
Definition entry_of (df : list zonal_row) (c : Z) (row : result_row) : Prop :=
  legend_get c igbp_legend = Some (Vegetation_Type row)
  /\ (exists rows,
        Permutation rows (filter (fun r => veg_type_id r =? c) df)
        /\ StronglySorted (fun a b => year a <= year b) rows
        /\ result row = original_test (map mean_ndvi rows))
  /\ (Significant row = true <-> (p (result row) < 5 # 100)%Q).

End Test.

End TrendTable.

(** ** preprocess_timeseries.py *)

Module Preprocess.
Import Float.

(** The first entry of [l] that is not NaN: its distance from the head of
    [l] and its value. *)
Fixpoint next_valid (l : list float) : option (nat * Q) :=
  match l with
  | [] => None
  | Some v :: _ => Some (0%nat, v)
  | None :: r => option_map (fun kv => (S (fst kv), snd kv)) (next_valid r)
  end.

(** [Series.interpolate(method='linear', limit_direction='both')]: the
    positions count as equally spaced; a NaN between two values is put on
    the line through them, a NaN before the first or after the last value
    takes that value, and a column without any value is left as it is.
    [prev] is the last value met and the number of positions since it. *)
Fixpoint interpolate_from (prev : option (Q * nat)) (l : list float) : list float :=
  match l with
  | [] => []
  | Some v :: r => Some v :: interpolate_from (Some (v, 1%nat)) r
  | None :: r =>
      match prev, next_valid r with
      | Some (v, d), Some (k, w) =>
          Some ((w - v) / of_nat (d + k + 1) * of_nat d + v)%Q
      | Some (v, _), None => Some v
      | None, Some (_, w) => Some w
      | None, None => None
      end
        :: interpolate_from (match prev with
                             | Some (v, d) => Some (v, S d)
                             | None => None
                             end) r
  end.

Definition interpolate (l : list float) : list float := interpolate_from None l.

(** Lines 29-31: interpolation only when the column has a NaN. *)
Definition fill_missing (col : list float) : list float :=
  if existsb isnan col then interpolate col else col.

(** [window_length = 7] *)
Definition window_length : nat := 7.

(** [Series.clip(lower, upper)]; a NaN stays a NaN. *)
Definition clip (lower : Q) (upper : option Q) (v : float) : float :=
  match v with
  | None => None
  | Some q =>
      let q' := if Qlt_le_dec q lower then lower else q in
      Some (match upper with
            | Some u => if Qlt_le_dec u q' then u else q'
            | None => q'
            end)
  end.

Section Smoothing.

(** The values of [scipy.signal.savgol_filter(x, 7, 3)] on an input of at
    least seven samples, none of them NaN. *)
Variable savgol_values : list float -> list float.

(** What the filter does with an input of at least seven samples that
    holds values and NaN side by side.  The script never gives it one:
    [fill_missing] leaves a NaN only in a column without any value. *)
Variable savgol_mixed : list float -> Trend.result (list float).

(** [savgol_filter]: it refuses an input shorter than the window, and its
    fit of the edges refuses an input of NaN. *)
Definition savgol_filter (x : list float) : Trend.result (list float) :=
  if (length x <? window_length)%nat then
    Trend.ValueError
      "If mode is 'interp', window_length must be less than or equal to the size of x."
  else if forallb isnan x then
    Trend.ValueError "array must not contain infs or NaNs"
  else if existsb isnan x then savgol_mixed x
  else Trend.Ok (savgol_values x).

(** Lines 42-48 for one column: smoothing, then clipping to [0, 1] for NDVI
    and EVI and to [0, infinity) for the others. *)
Definition smoothed (col_name : string) (col : list float)
  : Trend.result (list float) :=
  match savgol_filter col with
  | Trend.ValueError msg => Trend.ValueError msg
  | Trend.Ok y =>
      if existsb (String.eqb col_name) ["NDVI"; "EVI"]%string
      then Trend.Ok (map (clip 0 (Some 1%Q)) y)
      else Trend.Ok (map (clip 0 None) y)
  end.

(** Sections 2 of [main] for one column. *)
Definition preprocess (col_name : string) (col : list float)
  : Trend.result (list float) :=
  smoothed col_name (fill_missing col).

End Smoothing.

End Preprocess.

(** ** download_gee_data.py *)

Module Monthly.

(** A calendar date; the images carry their acquisition date. *)
Record date : Type := mkDate { dyear : Z; dmonth : Z; dday : Z }.

(** Chronological order. *)
Definition date_ltb (a b : date) : bool :=
  (dyear a <? dyear b)
  || ((dyear a =? dyear b)
      && ((dmonth a <? dmonth b)
          || ((dmonth a =? dmonth b) && (dday a <? dday b)))).

Definition date_leb (a b : date) : bool := negb (date_ltb b a).

(** [collection.filterDate(start, end)]: the start is included, the end is
    not. *)
Definition filterDate {A : Type} (when : A -> date) (first last : date)
    (c : list A) : list A :=
  filter (fun i => date_leb first (when i) && date_ltb (when i) last) c.

(** [ee.Date.fromYMD] *)
Definition fromYMD (y m d : Z) : date := mkDate y m d.

(** [date.advance(1, 'month')] *)
Definition advance_month (d : date) : date :=
  if dmonth d =? 12 then mkDate (dyear d + 1) 1 (dday d)
  else mkDate (dyear d) (dmonth d + 1) (dday d).

(** ['2003-01-01'] and ['2023-12-31'] *)
Definition start_date : date := mkDate 2003 1 1.
Definition end_date : date := mkDate 2023 12 31.

Section Collection.

Variable image : Type.
Variable when : image -> date.

(** [collection = ImageCollection(...).filterDate(start_date, end_date)] *)
Definition collection (raw : list image) : list image :=
  filterDate when start_date end_date raw.

(** [monthly_collection_for_period] of [calculate_monthly_average] *)
Definition monthly_collection_for_period (raw : list image) (y m : Z) : list image :=
  let first := fromYMD y m 1 in
  let last := advance_month first in
  filterDate when first last (collection raw).

End Collection.

(** [years] and [months], and the pairs the two nested maps run over. *)
Definition years : list Z :=
  TrendTable.sequence (dyear start_date) (dyear end_date).

Definition months : list Z := TrendTable.sequence 1 12.

Definition year_months : list (Z * Z) :=
  flat_map (fun y => map (fun m => (y, m)) months) years.

(** A date of the calendar, as far as month and day go. *)
Definition calendar (d : date) : Prop := 1 <= dmonth d <= 12 /\ 1 <= dday d.

End Monthly.

(** ** Sample inputs *)

Module Samples.

(** A single-peaked bump: zero outside days 101..259, rising by one a day
    to 80 on day 180.  It is above half its amplitude on days 141..219. *)
Definition bump (d : Z) : Q := inject_Z (Z.max 0 (80 - Z.abs (d - 180))).

(** Metric series over consecutive years. *)
Definition series_of (values : list Z) : list Float.float :=
  map (fun z => Some (inject_Z z)) values.

(** Five years, [10, 12, 14, 16, 18]. *)
Definition linear5 : list Float.float := series_of [10; 12; 14; 16; 18].

(** Seven years, the second one undefined; the six valid points lie on the
    line of slope 1 through (0, 1). *)
Definition gapped7 : list Float.float :=
  [Some 1; None; Some 3; Some 4; Some 5; Some 6; Some 7]%Q.

(** A 2x2 raster, flattened: SOS trends 1, 2, 3, 4 (EOS trends twice
    that, LOS their difference) on classes 1, 1, 2, 2. *)
Definition raster2x2 : list Zonal.row :=
  [ Zonal.mkRow 1 (Some 1) (Some 2) (Some 1);
    Zonal.mkRow 1 (Some 2) (Some 4) (Some 2);
    Zonal.mkRow 2 (Some 3) (Some 6) (Some 3);
    Zonal.mkRow 2 (Some 4) (Some 8) (Some 4) ]%Q.

(** The records of seven years at one pixel: six years of
    [{sos = 1, eos = 87, peak = 365}] and one year, the third, of
    [{sos = 141, eos = 0, peak = 180}]. *)
Definition seven_years : list Phenology.phenology :=
  let good := Phenology.mkPhenology 1 87 365 in
  [good; good; Phenology.mkPhenology 141 0 180; good; good; good; good].




(** A zonal table: class 4 in four years, class 10 in two. *)
Definition zonal_table : list TrendTable.zonal_row :=
  [ TrendTable.mkZonal 2004 4 (Some (52 # 100)%Q);
    TrendTable.mkZonal 2003 4 (Some (50 # 100)%Q);
    TrendTable.mkZonal 2003 10 (Some (30 # 100)%Q);
    TrendTable.mkZonal 2005 4 None;
    TrendTable.mkZonal 2004 10 (Some (31 # 100)%Q);
    TrendTable.mkZonal 2006 4 (Some (55 # 100)%Q) ].

(** A stand-in for the p-value of the trend test: the number of values the
    test was given. *)
Definition count_test (l : list Float.float) : Q := Float.of_nat (length l).

(** The groups of four years: classes 4 and 10, and no data in 2005. *)
Definition sample_groups (y : Z) : option (list (Z * Float.float)) :=
  if y =? 2005 then None
  else Some [(4, Some (1 # 2)%Q); (10, Some (3 # 10)%Q)].

(** A monthly column with gaps at both ends and inside. *)
Definition gappy_column : list Float.float :=
  [None; Some (2 # 10); None; None; Some (8 # 10); Some (6 # 10); None; None]%Q.

(** Eight observations (NDVI, time in radians) of one year, as many as
    [2 * harmonics + 2]. *)
Definition eight_observations : list (Q * Q) :=
  [ (2 # 10, 0); (3 # 10, 1); (5 # 10, 2); (7 # 10, 3); (8 # 10, 4);
    (6 # 10, 5); (4 # 10, 6); (2 # 10, 7) ]%Q.

(** A stand-in for the regression reducer: zero coefficients, one for each
    regressor. *)
Definition zero_coefficients (numX numY : nat) (c : list Bands.image)
  : option (list Q) :=
  Some (repeat 0%Q numX).


End Samples.

(** * Properties *)

(** ** Reducers over a collection *)

Section Reducers.
Import Phenology.

Lemma Qmin_cases (x y : Q) :
  (Qmin x y = x /\ (x <= y)%Q) \/ (Qmin x y = y /\ (y <= x)%Q).
Proof.
  unfold Qmin, GenericMinMax.gmin. destruct (x ?= y)%Q eqn:E.
  - left; split; [reflexivity|]. apply Qle_alt. rewrite E; discriminate.
  - left; split; [reflexivity|]. apply Qle_alt. rewrite E; discriminate.
  - right; split; [reflexivity|]. apply Qlt_le_weak, Qgt_alt, E.
Qed.

Lemma fold_min_Q_spec (r : list Q) (x : Q) :
  (fold_left Qmin r x = x \/ In (fold_left Qmin r x) r)
  /\ (fold_left Qmin r x <= x)%Q
  /\ (forall y, In y r -> (fold_left Qmin r x <= y)%Q).
Proof.
  revert x; induction r as [|a r IH]; intros x; simpl.
  - split; [now left|]. split; [apply Qle_refl | tauto].
  - destruct (IH (Qmin x a)) as (Hin & Hle & Hlow).
    destruct (Qmin_cases x a) as [[E Hxa]|[E Hax]]; rewrite E in *.
    + split; [destruct Hin; auto|]. split; [assumption|].
      intros y [<-|Hy]; [eapply Qle_trans; eauto | auto].
    + split; [destruct Hin; auto|]. split; [eapply Qle_trans; eauto|].
      intros y [<-|Hy]; auto.
Qed.





End Reducers.

(** ** The daily collection *)

Section DailyCollection.
Import Phenology.







End DailyCollection.

(** ** Peak and threshold of a daily collection *)

Section Extraction.
Import Phenology.

Variable predict : Z -> Q.
Variable n : nat.
Hypothesis n_pos : (1 <= n)%nat.

Let c : list image := collection_of predict (sequence_from_1 n).


End Extraction.

(** ** Claims on the peak and the end of season, image by image *)

Section PhenologyClaims.
Import Phenology.



(** C1, at the bump of [Samples]: the curve exceeds its threshold 40 exactly
    on days 141..219, the descending scan from day 365 down to the peak
    meets day 219 first, and the EOS band of the code is 0. *)
Theorem eos_doy_bump :
  let c := daily_smoothed_collection Samples.bump in
  threshold c = Some (80 # 2)%Q
  /\ peak_doy c = Some 180
  /\ map doy (filter (exceeds (80 # 2)) c) = map Z.of_nat (seq 141 79)
  /\ last_exceeding_down_to c (80 # 2) 180 = Some 219
  /\ sos_doy c = Some 141
  /\ eos_doy c = Some 0.
Proof. vm_compute. repeat split; reflexivity. Qed.

End PhenologyClaims.

(** ** Claims on [extract_phenology_for_year] as the client runs it *)

Section ClientClaims.
Import Client.

(** C2.  On the daily collection the map of line 102 gives a collection,
    and line 105 asks [where] of a collection, which has none: lines
    102-106 end in an AttributeError and compute no SOS band, whatever the
    curve. *)
Theorem sos_doy_raises (number_rename : bool) :
  greenup_phase number_rename ImageCollection = Returned ImageCollection
  /\ attribute number_rename ImageCollection "where" = None
  /\ sos_image number_rename ImageCollection
     = AttributeError ImageCollection "where"
  /\ sos_doy number_rename ImageCollection
     = AttributeError ImageCollection "where".
Proof. destruct number_rename; repeat split. Qed.

(** C8.  The call of the function for a year ends in an AttributeError and
    returns no image, whatever the curve: at line 105 when [ee.Number] has
    a [rename], at line 35 (reached from line 58) when it has none.  A flat
    curve is thus not reported in a record; the error is raised. *)
Theorem extract_phenology_for_year_raises (number_rename : bool) (year : Z) :
  extract_phenology_for_year number_rename year
  = (if number_rename then AttributeError ImageCollection "where"
     else AttributeError Number "rename")
  /\ forall image,
       extract_phenology_for_year number_rename year <> Returned image.
Proof.
  destruct number_rename; (split; [reflexivity | intros image; discriminate]).
Qed.

(** C3, as stated, fails: for no curve does the EOS band evaluate to 0,
    since lines 109-111 end in an AttributeError at the [where] of line 110
    and the call for the year 2003 returns no image. *)
Lemma eos_doy_raises :
  eos_doy true ImageCollection = AttributeError ImageCollection "where"
  /\ eos_doy false ImageCollection = AttributeError ImageCollection "where"
  /\ extract_phenology_for_year true 2003
     = AttributeError ImageCollection "where"
  /\ extract_phenology_for_year false 2003 = AttributeError Number "rename".
Proof. repeat split. Qed.

End ClientClaims.

(** ** Claims on the joint validity mask of [analyze_phenology.py] *)

Section MaskClaims.
Import Phenology.

(** C3, as amended.  An EOS band of 0 is no day of the year, and the joint
    validity mask turns all three of SOS, EOS and peak of a pixel and year
    with that EOS into NaN, whatever SOS and peak are. *)
Theorem valid_mask_voids_zero_eos (s p : Z) :
  is_doy 0 = false
  /\ Trend.valid_mask s 0 = false
  /\ Trend.apply_mask {| sos := s; eos := 0; peak := p |}
     = {| Trend.sos_ts := Float.nan; Trend.eos_ts := Float.nan;
          Trend.peak_ts := Float.nan |}.
Proof.
  assert (H : Trend.valid_mask s 0 = false).
  { unfold Trend.valid_mask. change (0 <? 0) with false.
    rewrite !andb_false_r. reflexivity. }
  split; [reflexivity|]. split; [exact H|].
  unfold Trend.apply_mask. cbn [sos eos peak]. rewrite H. reflexivity.
Qed.

End MaskClaims.

(** ** Sums and means without NaN *)

Section Means.
Import Float.

Lemma fsum_map_Some (l : list Q) : fsum (map Some l) = Some (sumQ l).
Proof.
  unfold fsum, sumQ. induction l as [|a l IH]; simpl; [reflexivity|].
  now rewrite IH.
Qed.

Lemma fsum_nan (l : list float) : In nan l -> fsum l = nan.
Proof.
  unfold fsum. induction l as [|a l IH]; simpl; [tauto|].
  intros [->|H]; [reflexivity|]. rewrite (IH H). now destruct a.
Qed.

Lemma of_nat_nonzero (k : nat) : k <> 0%nat -> ~ of_nat k == 0.
Proof.
  intros Hk E. unfold of_nat, Qeq in E. simpl in E. lia.
Qed.

Lemma Qeq_bool_false (x y : Q) : ~ x == y -> Qeq_bool x y = false.
Proof.
  intros H. destruct (Qeq_bool x y) eqn:E; [|reflexivity].
  apply Qeq_bool_iff in E. contradiction.
Qed.

Lemma fmean_map_Some (l : list Q) :
  l <> [] -> fmean (map Some l) = Some (sumQ l / of_nat (length l))%Q.
Proof.
  intros Hl. unfold fmean. rewrite fsum_map_Some, length_map. unfold fdiv.
  rewrite Qeq_bool_false; [reflexivity|].
  apply of_nat_nonzero. destruct l; [congruence | discriminate].
Qed.



Lemma square_nonneg (q : Q) : (0 <= q * q)%Q.
Proof.
  destruct (Qlt_le_dec q 0) as [H|H].
  - setoid_replace (q * q)%Q with ((- q) * (- q))%Q by ring.
    apply Qmult_le_0_compat; apply (Qopp_le_compat q 0), Qlt_le_weak, H.
  - now apply Qmult_le_0_compat.
Qed.

Lemma sumQ_squares_nonneg (xm : Q) (l : list Q) :
  (0 <= sumQ (map (fun x => (x - xm) * (x - xm))%Q l))%Q.
Proof.
  induction l as [|h t IH]; simpl; [apply Qle_refl|].
  setoid_replace 0%Q with (0 + 0)%Q by ring.
  apply Qplus_le_compat; [apply square_nonneg | exact IH].
Qed.

(** A sum of squared deviations vanishes only when every member sits on
    the centre. *)
Lemma sumQ_squares_zero (xm : Q) (l : list Q) (x : Q) :
  sumQ (map (fun x => (x - xm) * (x - xm))%Q l) == 0 -> In x l -> x == xm.
Proof.
  induction l as [|h t IH]; [intros _ []|].
  cbn [map sumQ fold_right].
  fold (sumQ (map (fun x => (x - xm) * (x - xm))%Q t)).
  intros E Hin.
  pose proof (square_nonneg (h - xm)) as Hh.
  pose proof (sumQ_squares_nonneg xm t) as Ht.
  assert (Eh : (h - xm) * (h - xm) == 0).
  { apply Qle_antisym; [|exact Hh]. rewrite <- E.
    setoid_replace ((h - xm) * (h - xm))%Q with ((h - xm) * (h - xm) + 0)%Q
      at 1 by ring.
    apply Qplus_le_compat; [apply Qle_refl | exact Ht]. }
  assert (Et : sumQ (map (fun x => (x - xm) * (x - xm))%Q t) == 0).
  { rewrite Eh in E. rewrite <- E. ring. }
  destruct Hin as [<-|Hin]; [|now apply IH].
  apply Qmult_integral in Eh.
  setoid_replace h with ((h - xm) + xm)%Q by ring.
  destruct Eh as [-> | ->]; ring.
Qed.

End Means.

(** ** The per-pixel least-squares slope *)

Section Slope.
Import Float Trend.

Lemma length_arange (n : nat) : length (arange n) = n.
Proof. unfold arange. now rewrite length_map, length_seq. Qed.

Lemma count_valid_le (series : list float) :
  (count_valid series <= length series)%nat.
Proof. apply filter_length_le. Qed.


Lemma fold_max_Q_ge (r : list Q) (x : Q) :
  (x <= fold_left Qmax r x)%Q
  /\ forall y, In y r -> (y <= fold_left Qmax r x)%Q.
Proof.
  revert x; induction r as [|a r IH]; intros x; simpl.
  - split; [apply Qle_refl | tauto].
  - destruct (IH (Qmax x a)) as [H1 H2]. split.
    + eapply Qle_trans; [apply Q.le_max_l | exact H1].
    + intros y [<-|Hy]; [|auto].
      eapply Qle_trans; [apply Q.le_max_r | exact H1].
Qed.

(** The year axis of two or more years is not constant. *)
Lemma arange_not_constant (n : nat) :
  (2 <= n)%nat -> Qeq_bool (amax (arange n)) (amin (arange n)) = false.
Proof.
  intros Hn. destruct n as [|[|n]]; [lia | lia |].
  apply Qeq_bool_false. unfold arange. cbn [seq map amax amin].
  set (r := of_nat 1 :: map of_nat (seq 2 n)).
  destruct (fold_max_Q_ge r (of_nat 0)) as [_ Hmax].
  destruct (fold_min_Q_spec r (of_nat 0)) as (_ & Hmin & _).
  specialize (Hmax (of_nat 1) (or_introl eq_refl)).
  intros E. rewrite E in Hmax.
  assert (H : (of_nat 1 <= of_nat 0)%Q) by (eapply Qle_trans; eauto).
  unfold of_nat, Qle in H. simpl in H. lia.
Qed.

(** On a year axis of two or more years, [linregress] passes its input
    checks and returns the quotient of the two moments. *)
Lemma linregress_slope_arange (y : list float) :
  (2 <= length y)%nat ->
  linregress_slope (arange (length y)) y
  = Ok (let x := arange (length y) in
        let xmean := fmean (map Some x) in
        let ymean := fmean y in
        fdiv (ssxym_of x y xmean ymean) (ssxm_of x xmean)).
Proof.
  intros Hn. unfold linregress_slope. rewrite length_arange.
  destruct (length y) as [|[|k]] eqn:E; [lia | lia |].
  rewrite Nat.eqb_refl. cbn [Nat.eqb orb negb].
  rewrite arange_not_constant by lia. reflexivity.
Qed.


Lemma ssxm_of_Some (x : list Q) (xm : Q) :
  x <> [] ->
  ssxm_of x (Some xm)
  = Some (sumQ (map (fun a => (a - xm) * (a - xm))%Q x) / of_nat (length x))%Q.
Proof.
  intros Hx. unfold ssxm_of.
  transitivity (fmean (map Some (map (fun a => (a - xm) * (a - xm))%Q x))).
  { rewrite map_map. reflexivity. }
  rewrite fmean_map_Some, length_map; [reflexivity|].
  intros E. apply map_eq_nil in E. contradiction.
Qed.


Lemma arange_variance_nonzero (n : nat) (xm : Q) :
  (2 <= n)%nat ->
  ~ sumQ (map (fun a => (a - xm) * (a - xm))%Q (arange n)) == 0.
Proof.
  intros Hn E.
  assert (H0 : of_nat 0 == xm).
  { apply (sumQ_squares_zero xm (arange n)); [exact E|].
    unfold arange. apply in_map, in_seq. lia. }
  assert (H1 : of_nat 1 == xm).
  { apply (sumQ_squares_zero xm (arange n)); [exact E|].
    unfold arange. apply in_map, in_seq. lia. }
  rewrite <- H1 in H0. unfold of_nat, Qeq in H0. simpl in H0. lia.
Qed.


End Slope.

(** ** Claims on the per-pixel trend of [analyze_phenology.py] *)

Section TrendClaims.
Import Float Trend.

(** C6.  For every pixel series the slope computation returns without an
    error; with at most five valid years the slope stays NaN, so a slope is
    a number only when strictly more than five years are valid. *)
Theorem pixel_slope_needs_more_than_five (series : list float) :
  (exists v, pixel_slope series = Ok v)
  /\ ((count_valid series <= 5)%nat -> pixel_slope series = Ok nan)
  /\ (forall s, pixel_slope series = Ok (Some s) -> (5 < count_valid series)%nat).
Proof.
  unfold pixel_slope.
  destruct (5 <? count_valid series)%nat eqn:G.
  - apply Nat.ltb_lt in G. pose proof (count_valid_le series) as Hle.
    rewrite linregress_slope_arange by lia.
    split; [eexists; reflexivity|]. split; [lia | intros; exact G].
  - apply Nat.ltb_ge in G.
    split; [eexists; reflexivity|]. split; [reflexivity | discriminate].
Qed.

Lemma pixel_slope_needs_more_than_five_witness :
  pixel_slope Samples.linear5 = Ok nan.
Proof.
  apply (proj1 (proj2 (pixel_slope_needs_more_than_five Samples.linear5))).
  vm_compute. lia.
Defined.




(** C4, at the series [gapped7]: six of the seven years are valid, the
    guard passes, and the NaN of the second year makes the slope NaN; least
    squares over the six valid (year, value) pairs gives slope 1. *)
Theorem pixel_slope_gapped7 :
  count_valid Samples.gapped7 = 6%nat
  /\ pixel_slope Samples.gapped7 = Ok nan
  /\ valid_pairs Samples.gapped7
     = [(of_nat 0, 1); (of_nat 2, 3); (of_nat 3, 4); (of_nat 4, 5);
        (of_nat 5, 6); (of_nat 6, 7)]%Q
  /\ exists s, valid_years_slope Samples.gapped7 = Ok (Some s) /\ s == 1.
Proof.
  split; [reflexivity|]. split; [vm_compute; reflexivity|].
  split; [reflexivity|].
  eexists. split; [vm_compute; reflexivity|]. reflexivity.
Qed.

End TrendClaims.

(** ** The pixel table and its groups *)

Section Groups.
Import Float Zonal.

Lemma filter_filter_and {A : Type} (P Q : A -> bool) (l : list A) :
  filter P (filter Q l) = filter (fun x => Q x && P x) l.
Proof.
  induction l as [|a l IH]; simpl; [reflexivity|].
  destruct (Q a); simpl; [destruct (P a)|]; now rewrite IH.
Qed.

(** The four clean-up steps keep the rows of an admitted class with all
    three trends present. *)
Lemma clean_filter (lc_nodata : option Z) (trend_nodata : option float)
    (excluded : list Z) (df : list row) :
  clean lc_nodata trend_nodata excluded df
  = filter (fun r => class_ok lc_nodata excluded (LC_Type_ID r) && complete r) df.
Proof.
  unfold clean, dropna, class_ok.
  destruct lc_nodata as [nd|], trend_nodata as [t|];
    rewrite ?filter_filter_and; apply filter_ext; intros r; unfold complete;
    destruct (isnan (SOS_Trend r)), (isnan (EOS_Trend r)), (isnan (LOS_Trend r));
    cbn [negb andb]; rewrite ?andb_true_r, ?andb_false_r; reflexivity.
Qed.

Lemma group_clean (lc_nodata : option Z) (trend_nodata : option float)
    (excluded : list Z) (df : list row) (c : Z) :
  group c (clean lc_nodata trend_nodata excluded df)
  = contributing_complete lc_nodata excluded c df.
Proof.
  rewrite clean_filter. unfold group, contributing_complete.
  rewrite filter_filter_and. apply filter_ext. intros r.
  destruct (Z.eqb_spec (LC_Type_ID r) c) as [->|Hne].
  - rewrite andb_true_r. reflexivity.
  - rewrite andb_false_r. reflexivity.
Qed.

Lemma in_insert_key (k x : Z) (keys : list Z) :
  In x (insert_key k keys) <-> x = k \/ In x keys.
Proof.
  induction keys as [|h t IH]; simpl; [intuition|].
  destruct (k <? h); [simpl; intuition|].
  destruct (Z.eqb_spec k h) as [->|Hne]; simpl; [intuition|].
  rewrite IH. intuition.
Qed.

Lemma in_group_keys (df : list row) (k : Z) :
  In k (group_keys df) <-> exists r, In r df /\ LC_Type_ID r = k.
Proof.
  unfold group_keys. induction df as [|r df IH]; simpl.
  - split; [tauto | intros (r & [] & _)].
  - rewrite in_insert_key, IH. split.
    + intros [->|(r' & Hr' & E)]; [exists r; auto | exists r'; auto].
    + intros (r' & [<-|Hr'] & E); [left; now symmetry | right; exists r'; auto].
Qed.

Lemma group_nonempty (df : list row) (k : Z) :
  group k df <> [] <-> In k (group_keys df).
Proof.
  rewrite in_group_keys. unfold group. split.
  - intros H. destruct (filter _ df) as [|r g] eqn:E; [congruence|].
    assert (Hr : In r (filter (fun r => LC_Type_ID r =? k) df))
      by (rewrite E; now left).
    apply filter_In in Hr. destruct Hr as [Hin Hk].
    exists r. split; [exact Hin | now apply Z.eqb_eq].
  - intros (r & Hin & Hk) E.
    assert (Hr : In r (filter (fun r => LC_Type_ID r =? k) df)).
    { apply filter_In. split; [exact Hin | now apply Z.eqb_eq]. }
    rewrite E in Hr. exact Hr.
Qed.

Lemma in_groupby_mean (df : list row) (k : Z) (m : means) :
  In (k, m) (groupby_mean df)
  <-> group k df <> [] /\ m = group_mean (group k df).
Proof.
  unfold groupby_mean. rewrite in_map_iff, group_nonempty. split.
  - intros (k' & [= <- <-] & Hk). auto.
  - intros (Hk & ->). exists k. auto.
Qed.

Lemma fmean_complete_column (col : row -> float) (g : list row) :
  (forall r, In r g -> isnan (col r) = false) ->
  column_mean col g = arithmetic_mean col g.
Proof.
  intros H. unfold column_mean, arithmetic_mean, fmean.
  assert (E : filter (fun v => negb (isnan v)) (map col g) = map col g).
  { induction g as [|r g IH]; simpl; [reflexivity|].
    rewrite (H r (or_introl eq_refl)). simpl. f_equal.
    apply IH. intros r' Hr'. apply H. now right. }
  rewrite E, length_map. reflexivity.
Qed.

Lemma group_mean_complete (g : list row) :
  (forall r, In r g -> complete r = true) ->
  group_mean g = arithmetic_means g.
Proof.
  intros H. unfold group_mean, arithmetic_means.
  rewrite !fmean_complete_column; [reflexivity| | |];
    intros r Hr; specialize (H r Hr); unfold complete in H;
    destruct (isnan (SOS_Trend r)), (isnan (EOS_Trend r)), (isnan (LOS_Trend r));
    simpl in H; congruence.
Qed.

End Groups.

(** ** The band names of the harmonic fit of [extract_phenology.py] *)

Section HarmonicBands.
Import Harmonic.

Lemma fold_left_append {A B : Type} (f : B -> list A) (l : list B)
    (init : list A) :
  fold_left (fun acc i => acc ++ f i) l init = init ++ flat_map f l.
Proof.
  revert init; induction l as [|b l IH]; intros init; simpl.
  - now rewrite app_nil_r.
  - rewrite IH. now rewrite app_assoc.
Qed.

Lemma length_flat_map_pairs {A B : Type} (f g : B -> A) (l : list B) :
  length (flat_map (fun i => [f i; g i]) l) = (2 * length l)%nat.
Proof. induction l as [|b l IH]; simpl; [reflexivity | rewrite IH; lia]. Qed.

(** For every harmonic order K the regression is asked for 2K+1
    regressors, in the order constant, cos_1, sin_1, ..., cos_K, sin_K,
    followed by the response NDVI. *)
Lemma harmonic_bands_layout (K : nat) :
  harmonic_bands K
  = "constant"%string
      :: flat_map (fun i => [band "cos" i; band "sin" i]) (seq 1 K)
  /\ length (harmonic_bands K) = (2 * K + 1)%nat
  /\ numX K = (2 * K + 1)%nat /\ numY = 1%nat
  /\ regression_selectors K = harmonic_bands K ++ ["NDVI"%string].
Proof.
  assert (E : harmonic_bands K
              = "constant"%string
                  :: flat_map (fun i => [band "cos" i; band "sin" i]) (seq 1 K)).
  { unfold harmonic_bands.
    rewrite (fold_left_append (fun i => [band "cos" i; band "sin" i])).
    reflexivity. }
  assert (L : length (harmonic_bands K) = (2 * K + 1)%nat).
  { rewrite E. cbn [length]. rewrite length_flat_map_pairs, length_seq. lia. }
  repeat split; assumption || reflexivity.
Qed.

(** The images the regression selects from carry the bands NDVI, t and the
    sines and cosines; none is named constant. *)
Lemma fitted_image_bands :
  add_harmonic_bands harmonics (add_time_bands ["NDVI"%string])
  = ["NDVI"; "t"; "sin_1"; "cos_1"; "sin_2"; "cos_2"; "sin_3"; "cos_3"]%string
  /\ ~ In "constant"%string
       (add_harmonic_bands harmonics (add_time_bands ["NDVI"%string])).
Proof.
  split; [reflexivity|]. vm_compute. intuition discriminate.
Qed.

End HarmonicBands.

(** * Further properties *)

From Stdlib Require Import Lqa.
From Stdlib Require DecimalNat.

(** ** The bands selected for prediction and for the regression *)

Section BandSelection.
Import Harmonic Bands.

Variables sin cos : Q -> Q.

Lemma harmonic_bands_flat (K : nat) :
  harmonic_bands K
  = "constant"%string :: flat_map (fun i => [band "cos" i; band "sin" i]) (seq 1 K).
Proof.
  unfold harmonic_bands.
  rewrite (fold_left_append (fun i => [band "cos" i; band "sin" i])).
  reflexivity.
Qed.




Lemma fold_addBands (t : Q) (l : list nat) (img : image) :
  fold_left
    (fun image i =>
       addBands (addBands image (band "sin" i) (sin (t * Float.of_nat i)))
                (band "cos" i) (cos (t * Float.of_nat i)))
    l img
  = img ++ harmonic_part sin cos t l.
Proof.
  revert img; induction l as [|i l IH]; intros img; simpl.
  - now rewrite app_nil_r.
  - rewrite IH. unfold addBands. rewrite <- !app_assoc. reflexivity.
Qed.



Lemma get_harmonic_constant (t : Q) (l : list nat) :
  get "constant" (harmonic_part sin cos t l) = None.
Proof.
  induction l as [|j l IH]; [reflexivity|].
  cbn [harmonic_part flat_map app get].
  replace (String.eqb (band "sin" j) "constant") with false
    by (symmetry; apply String.eqb_neq; discriminate).
  replace (String.eqb (band "cos" j) "constant") with false
    by (symmetry; apply String.eqb_neq; discriminate).
  exact IH.
Qed.



(** X7.  For every harmonic order and every observation the selection that
    feeds the regression fails: it asks for a band [constant], which the
    observation images never receive. *)
Theorem regression_input_lacks_constant (K : nat) (ndvi t : Q) :
  regression_input sin cos K ndvi t = None
  /\ exists img,
       add_harmonic_bands sin cos K (add_time_bands [("NDVI"%string, ndvi)] t)
       = Some img
       /\ get "constant" img = None.
Proof.
  unfold regression_input, add_harmonic_bands, add_time_bands.
  cbn [addBands app get String.eqb Ascii.eqb Bool.eqb bind].
  rewrite fold_addBands.
  cbn [app].
  assert (Hc : get "constant" (("NDVI"%string, ndvi) :: ("t"%string, t)
                               :: harmonic_part sin cos t (seq 1 K)) = None).
  { cbn [get String.eqb Ascii.eqb Bool.eqb]. apply get_harmonic_constant. }
  split.
  - unfold regression_selectors. rewrite harmonic_bands_flat.
    cbn [app select]. rewrite Hc. reflexivity.
  - eexists. split; [reflexivity | exact Hc].
Qed.

End BandSelection.

(** ** Claims on the harmonic fit of [extract_phenology.py] *)

Section HarmonicFit.
Import Harmonic Bands.

Variables sin cos : Q -> Q.
Variable linearRegression : nat -> nat -> list image -> option (list Q).

Lemma ndvi_collection_images (K : nat) (observations : list (Q * Q)) :
  ndvi_collection sin cos K observations
  = Some (map (fun o => ("NDVI"%string, fst o) :: ("t"%string, snd o)
                          :: harmonic_part sin cos (snd o) (seq 1 K))
              observations).
Proof.
  induction observations as [|o rest IH]; [reflexivity|].
  cbn [ndvi_collection map]. rewrite IH.
  unfold add_harmonic_bands, add_time_bands.
  cbn [addBands app get String.eqb Ascii.eqb Bool.eqb bind].
  rewrite fold_addBands. reflexivity.
Qed.

Lemma select_collection_lacking (names : list string) (name : string)
    (c : list image) :
  c <> [] -> (forall img, In img c -> get name img = None) ->
  select_collection (name :: names) c = None.
Proof.
  destruct c as [|img rest]; [congruence|]. intros _ H.
  cbn [select_collection select]. rewrite (H img (or_introl eq_refl)).
  reflexivity.
Qed.

(** C7.  For every harmonic order, every regression reducer and every
    series of observations that is not empty, however long, lines 53-70
    give no coefficient vector: the collection of the observations is
    built, one image for each, but none of its images has a band
    [constant], which the selection in front of the regression asks for. *)
Theorem harmonic_fit_fails (K : nat) (observations : list (Q * Q)) :
  observations <> [] ->
  (exists c,
     ndvi_collection sin cos K observations = Some c
     /\ length c = length observations
     /\ (forall img, In img c -> get "constant" img = None)
     /\ select_collection (regression_selectors K) c = None)
  /\ harmonic_fit sin cos linearRegression K observations = None.
Proof.
  intros Hne.
  set (c := map (fun o => ("NDVI"%string, fst o) :: ("t"%string, snd o)
                            :: harmonic_part sin cos (snd o) (seq 1 K))
                observations).
  assert (Hc : forall img, In img c -> get "constant" img = None).
  { intros img Hin. apply in_map_iff in Hin. destruct Hin as (o & <- & _).
    cbn [get String.eqb Ascii.eqb Bool.eqb]. apply get_harmonic_constant. }
  assert (Hs : select_collection (regression_selectors K) c = None).
  { unfold regression_selectors. rewrite harmonic_bands_flat. cbn [app].
    apply select_collection_lacking; [|exact Hc].
    unfold c. destruct observations; [congruence | discriminate]. }
  split.
  - exists c. split; [apply ndvi_collection_images|].
    split; [unfold c; apply length_map|]. split; assumption.
  - unfold harmonic_fit. rewrite ndvi_collection_images. fold c.
    cbn [bind]. rewrite Hs. reflexivity.
Qed.

End HarmonicFit.

Lemma harmonic_fit_fails_witness :
  (exists c,
     Bands.ndvi_collection (fun x => x) (fun x => x) Harmonic.harmonics
       Samples.eight_observations = Some c
     /\ length c = length Samples.eight_observations
     /\ (forall img, In img c -> Bands.get "constant" img = None)
     /\ Bands.select_collection
          (Harmonic.regression_selectors Harmonic.harmonics) c = None)
  /\ Bands.harmonic_fit (fun x => x) (fun x => x) Samples.zero_coefficients
       Harmonic.harmonics Samples.eight_observations = None.
Proof.
  apply (harmonic_fit_fails (fun x => x) (fun x => x) Samples.zero_coefficients
           Harmonic.harmonics Samples.eight_observations).
  discriminate.
Defined.

(** ** The per-pixel slope in general *)

Section SlopeInGeneral.
Import Float Trend.

Lemma fsum_all_nan (l : list float) :
  l <> [] -> (forall v, In v l -> v = nan) -> fsum l = nan.
Proof.
  destruct l as [|a l]; [congruence|]. intros _ H.
  apply fsum_nan. rewrite <- (H a (or_introl eq_refl)). now left.
Qed.

(** A NaN year makes the slope of [linregress] NaN. *)
Lemma linregress_slope_nan (y : list float) :
  (2 <= length y)%nat -> In nan y ->
  linregress_slope (arange (length y)) y = Ok nan.
Proof.
  intros Hn Hnan. rewrite linregress_slope_arange by exact Hn. cbv zeta.
  f_equal.
  assert (Hy : fmean y = nan).
  { unfold fmean. rewrite (fsum_nan y Hnan). reflexivity. }
  rewrite Hy. unfold ssxym_of, fmean at 1.
  rewrite fsum_all_nan; [reflexivity| |].
  - intros E. apply map_eq_nil in E.
    apply (f_equal (@length (Q * float))) in E.
    rewrite length_combine, length_arange in E. simpl in E. lia.
  - intros v Hv. apply in_map_iff in Hv. destruct Hv as (p & <- & _).
    unfold fmul, fsub, lift2, nan.
    destruct (snd p), (fmean (map Some (arange (length y)))); reflexivity.
Qed.

Lemma pixel_slope_nan (series : list float) :
  In nan series -> pixel_slope series = Ok nan.
Proof.
  intros Hnan. unfold pixel_slope.
  destruct (5 <? count_valid series)%nat eqn:G; [|reflexivity].
  apply Nat.ltb_lt in G. pose proof (count_valid_le series).
  apply linregress_slope_nan; [lia | exact Hnan].
Qed.

Lemma no_nan_values (series : list float) :
  ~ In nan series -> exists l, series = map Some l.
Proof.
  induction series as [|v series IH]; intros H.
  - exists []. reflexivity.
  - destruct IH as (l & ->); [intros Hin; apply H; now right|].
    destruct v as [q|]; [|exfalso; apply H; now left].
    exists (q :: l). reflexivity.
Qed.

Lemma count_valid_values (l : list Q) : count_valid (map Some l) = length l.
Proof.
  unfold count_valid. induction l as [|h t IH]; simpl; [reflexivity|].
  now rewrite IH.
Qed.

Lemma combine_map_r {A B C : Type} (h : B -> C) (x : list A) (l : list B) :
  combine x (map h l) = map (fun p => (fst p, h (snd p))) (combine x l).
Proof.
  revert l; induction x as [|a x IH]; intros [|b l]; simpl; try reflexivity.
  now rewrite IH.
Qed.

(** The points (year index, value) of a series without NaN. *)
Lemma ssxym_of_values (x l : list Q) (xm ym : Q) :
  combine x l <> [] ->
  ssxym_of x (map Some l) (Some xm) (Some ym)
  = Some (sumQ (map (fun p => (fst p - xm) * (snd p - ym))%Q (combine x l))
          / of_nat (length (combine x l)))%Q.
Proof.
  intros Hne. unfold ssxym_of. rewrite combine_map_r, map_map.
  transitivity (fmean (map Some (map (fun p => (fst p - xm) * (snd p - ym))%Q
                                     (combine x l)))).
  { rewrite map_map. reflexivity. }
  rewrite fmean_map_Some, length_map; [reflexivity|].
  intros E. apply map_eq_nil in E. contradiction.
Qed.

(** The slope of a series without NaN over two or more years, in closed
    form: covariance over variance. *)
Lemma linregress_slope_values (l : list Q) :
  (2 <= length l)%nat ->
  let x := arange (length l) in
  let N := of_nat (length l) in
  let xm := (sumQ x / N)%Q in
  let ym := (sumQ l / N)%Q in
  let S := sumQ (map (fun a => (a - xm) * (a - xm))%Q x) in
  let Sxy := sumQ (map (fun p => (fst p - xm) * (snd p - ym))%Q (combine x l)) in
  ~ N == 0 /\ ~ S == 0
  /\ linregress_slope x (map Some l) = Ok (Some ((Sxy / N) / (S / N))%Q).
Proof.
  intros Hn x N xm ym S Sxy.
  assert (Hlx : length x = length l) by apply length_arange.
  assert (HN : ~ N == 0) by (apply of_nat_nonzero; lia).
  assert (HS : ~ S == 0) by (apply arange_variance_nonzero; exact Hn).
  split; [exact HN|]. split; [exact HS|].
  pose proof (linregress_slope_arange (map Some l)) as Hl.
  rewrite length_map in Hl. fold x in Hl. rewrite (Hl Hn). clear Hl. cbv zeta.
  assert (Hx : x <> []).
  { intros E. apply (f_equal (@length Q)) in E. rewrite Hlx in E. simpl in E. lia. }
  assert (Hl0 : l <> []) by (intros ->; simpl in Hn; lia).
  assert (Hc : combine x l <> []).
  { intros E. apply (f_equal (@length (Q * Q))) in E.
    rewrite length_combine, Hlx in E. simpl in E. lia. }
  rewrite (fmean_map_Some x Hx), (fmean_map_Some l Hl0), Hlx.
  fold N xm ym.
  rewrite (ssxm_of_Some x xm Hx), (ssxym_of_values x l xm ym Hc).
  rewrite length_combine, Hlx, Nat.min_id. fold N S Sxy.
  assert (HSN : ~ S / N == 0).
  { intros E. apply HS.
    setoid_replace S with (S / N * N)%Q by (field; exact HN).
    rewrite E. ring. }
  unfold fdiv. rewrite (Qeq_bool_false _ _ HSN). reflexivity.
Qed.

(** X8.  The slope of a pixel is a number exactly when its series has more
    than five years and none of them is NaN: one NaN year is enough to make
    the slope NaN. *)
Theorem pixel_slope_number_iff (series : list float) :
  (exists s, pixel_slope series = Ok (Some s))
  <-> (5 < length series)%nat /\ ~ In nan series.
Proof.
  split.
  - intros (s & Hs). split.
    + unfold pixel_slope in Hs.
      destruct (5 <? count_valid series)%nat eqn:G; [|discriminate].
      apply Nat.ltb_lt in G. pose proof (count_valid_le series). lia.
    + intros Hnan. rewrite (pixel_slope_nan series Hnan) in Hs. discriminate.
  - intros [Hlen Hnan]. destruct (no_nan_values series Hnan) as (l & ->).
    rewrite length_map in Hlen. unfold pixel_slope.
    rewrite count_valid_values, length_map.
    apply Nat.ltb_lt in Hlen. rewrite Hlen. apply Nat.ltb_lt in Hlen.
    destruct (linregress_slope_values l) as (_ & _ & E); [lia|].
    cbv zeta in E. rewrite E. eexists. reflexivity.
Qed.

End SlopeInGeneral.

(** ** Sums of rationals *)

Section Sums.
Import Float Trend.



End Sums.

(** ** The three trend bands of a pixel *)

Section TrendBands.
Import Float Trend.

Lemma pixel_slope_ok (series : list float) : exists v, pixel_slope series = Ok v.
Proof.
  unfold pixel_slope.
  destruct (5 <? count_valid series)%nat eqn:G; [|eexists; reflexivity].
  apply Nat.ltb_lt in G. pose proof (count_valid_le series).
  rewrite linregress_slope_arange by lia. eexists. reflexivity.
Qed.

Lemma pixel_slope_short (series : list float) :
  (length series <= 5)%nat -> pixel_slope series = Ok nan.
Proof.
  intros H. unfold pixel_slope. pose proof (count_valid_le series).
  replace (5 <? count_valid series)%nat with false; [reflexivity|].
  symmetry. apply Nat.ltb_ge. lia.
Qed.

Lemma masked_nan_together (records : list Phenology.phenology) :
  In nan (sos_series records) <-> In nan (eos_series records).
Proof.
  unfold sos_series, eos_series. rewrite !in_map_iff.
  split; intros (p & Hp & Hin); exists p; (split; [|exact Hin]);
    unfold apply_mask, np_where in *; cbn [sos_ts eos_ts] in *;
    destruct (valid_mask _ _); [discriminate | reflexivity
                               | discriminate | reflexivity].
Qed.

Lemma pixel_slope_isnan (series : list float) (v : float) :
  pixel_slope series = Ok v ->
  isnan v = negb ((5 <? length series)%nat && negb (existsb isnan series)).
Proof.
  intros Hv.
  destruct (existsb isnan series) eqn:Hn.
  - apply existsb_exists in Hn. destruct Hn as ([q|] & Hin & Hq); [discriminate|].
    rewrite (pixel_slope_nan series Hin) in Hv. injection Hv as <-.
    now rewrite andb_false_r.
  - rewrite andb_true_r.
    destruct (5 <? length series)%nat eqn:G.
    + apply Nat.ltb_lt in G.
      assert (Hno : ~ In nan series).
      { intros H. assert (existsb isnan series = true)
          by (apply existsb_exists; exists nan; auto). congruence. }
      destruct (no_nan_values series Hno) as (l & ->).
      rewrite length_map in G.
      unfold pixel_slope in Hv. rewrite count_valid_values, length_map in Hv.
      apply Nat.ltb_lt in G. rewrite G in Hv. apply Nat.ltb_lt in G.
      destruct (linregress_slope_values l) as (_ & _ & E); [lia|].
      cbv zeta in E. rewrite E in Hv. injection Hv as <-. reflexivity.
    + apply Nat.ltb_ge in G. rewrite (pixel_slope_short series G) in Hv.
      injection Hv as <-. reflexivity.
Qed.

Lemma masked_nan_positions (records : list Phenology.phenology) :
  existsb isnan (eos_series records) = existsb isnan (sos_series records).
Proof.
  unfold sos_series, eos_series.
  induction records as [|p records IH]; [reflexivity|].
  cbn [map existsb]. rewrite IH. f_equal.
  unfold apply_mask, np_where. cbn [sos_ts eos_ts].
  destruct (valid_mask _ _); reflexivity.
Qed.

(** X11.  At every pixel the three bands of the trend raster are numbers
    together or NaN together. *)
Theorem trend_bands_nan_together (records : list Phenology.phenology) :
  exists s e l,
    sos_slope records = Ok s /\ eos_slope records = Ok e
    /\ los_slope records = Ok l
    /\ isnan e = isnan s /\ isnan l = isnan s.
Proof.
  destruct (pixel_slope_ok (sos_series records)) as (s & Hs).
  destruct (pixel_slope_ok (eos_series records)) as (e & He).
  exists s, e, (fsub e s).
  assert (Hse : isnan e = isnan s).
  { rewrite (pixel_slope_isnan _ _ Hs), (pixel_slope_isnan _ _ He).
    rewrite (masked_nan_positions records).
    unfold sos_series, eos_series. now rewrite !length_map. }
  split; [exact Hs|]. split; [exact He|]. split.
  - unfold los_slope, sos_slope, eos_slope. rewrite Hs, He. reflexivity.
  - split; [exact Hse|]. destruct e, s; simpl in *; congruence.
Qed.

End TrendBands.

(** ** Mean phenology and the years that fail the mask *)

Section MeansAndMask.
Import Float Trend.







(** X13.  One year that fails the validity mask at a pixel, for instance
    a year whose EOS band is 0, makes all three trend bands of the pixel
    NaN, however many other years are valid. *)
Theorem masked_year_voids_trend (records : list Phenology.phenology)
    (r : Phenology.phenology) :
  In r records ->
  valid_mask (Phenology.sos r) (Phenology.eos r) = false ->
  sos_slope records = Ok nan /\ eos_slope records = Ok nan
  /\ los_slope records = Ok nan.
Proof.
  intros Hrec Hmask.
  assert (Hs : In nan (sos_series records)).
  { unfold sos_series. apply in_map_iff. exists r. split; [|exact Hrec].
    unfold apply_mask, np_where. cbn [sos_ts]. rewrite Hmask. reflexivity. }
  assert (He : In nan (eos_series records)) by now apply masked_nan_together.
  pose proof (pixel_slope_nan _ Hs) as Es.
  pose proof (pixel_slope_nan _ He) as Ee.
  split; [exact Es|]. split; [exact Ee|].
  unfold los_slope, sos_slope, eos_slope. rewrite Es, Ee. reflexivity.
Qed.

Lemma masked_year_voids_trend_witness :
  sos_slope Samples.seven_years = Ok nan
  /\ eos_slope Samples.seven_years = Ok nan
  /\ los_slope Samples.seven_years = Ok nan.
Proof.
  apply (masked_year_voids_trend Samples.seven_years
           (Phenology.mkPhenology 141 0 180)).
  - simpl. tauto.
  - reflexivity.
Defined.

End MeansAndMask.

(** ** The zonal table in general *)

Section ZonalTable.
Import Float Zonal.

Lemma insert_key_sorted (k : Z) (keys : list Z) :
  StronglySorted Z.lt keys -> StronglySorted Z.lt (insert_key k keys).
Proof.
  induction keys as [|h t IH]; intros Hs; simpl.
  - constructor; [constructor | constructor].
  - inversion Hs as [|? ? Ht Hall]; subst.
    destruct (Z.ltb_spec k h) as [Hlt|Hge].
    + constructor; [exact Hs|]. constructor; [exact Hlt|].
      rewrite Forall_forall in Hall |- *. intros x Hx.
      specialize (Hall x Hx). lia.
    + destruct (Z.eqb_spec k h) as [->|Hne]; [exact Hs|].
      constructor; [apply IH; exact Ht|].
      rewrite Forall_forall in Hall |- *. intros x Hx.
      apply in_insert_key in Hx. destruct Hx as [->|Hx]; [lia | auto].
Qed.

Lemma group_keys_sorted (df : list row) : StronglySorted Z.lt (group_keys df).
Proof.
  unfold group_keys. induction (map LC_Type_ID df) as [|k l IH]; simpl.
  - constructor.
  - apply insert_key_sorted, IH.
Qed.

(** X14.  The classes of the zonal table are in strictly ascending order,
    so each class is reported once. *)
Theorem reported_classes_ascending (lc_nodata : option Z)
    (trend_nodata : option float) (excluded : list Z) (df : list row) :
  StronglySorted Z.lt
    (map fst (reported (zonal_mean lc_nodata trend_nodata excluded df)))
  /\ NoDup (map fst (reported (zonal_mean lc_nodata trend_nodata excluded df))).
Proof.
  assert (H : StronglySorted Z.lt
                (map fst (reported (zonal_mean lc_nodata trend_nodata excluded df)))).
  { unfold zonal_mean.
    destruct (clean lc_nodata trend_nodata excluded df) as [|r0 rest];
      [constructor|].
    cbn [reported]. unfold groupby_mean. rewrite map_map. cbn [fst].
    rewrite map_id. apply group_keys_sorted. }
  split; [exact H|].
  induction H as [|a l Hl IH Hall]; constructor; [|exact IH].
  intros Hin. rewrite Forall_forall in Hall. specialize (Hall a Hin). lia.
Qed.

Lemma reported_group (lc_nodata : option Z) (trend_nodata : option float)
    (excluded : list Z) (df : list row) (c : Z) (m : means) :
  In (c, m) (reported (zonal_mean lc_nodata trend_nodata excluded df))
  <-> contributing_complete lc_nodata excluded c df <> []
      /\ m = arithmetic_means (contributing_complete lc_nodata excluded c df).
Proof.
  assert (Hg := group_clean lc_nodata trend_nodata excluded df c).
  assert (Hall : forall r, In r (contributing_complete lc_nodata excluded c df)
                           -> complete r = true).
  { intros r Hr. apply filter_In in Hr. destruct Hr as [_ Hr].
    apply andb_prop in Hr. tauto. }
  unfold zonal_mean.
  destruct (clean lc_nodata trend_nodata excluded df) as [|r0 rest] eqn:E.
  - simpl in Hg. rewrite <- Hg. simpl. split; [tauto | intros [H _]; congruence].
  - cbn [reported]. rewrite in_groupby_mean, Hg.
    rewrite (group_mean_complete _ Hall). reflexivity.
Qed.

Lemma arithmetic_mean_number (col : row -> float) (g : list row) :
  g <> [] -> (forall r, In r g -> isnan (col r) = false) ->
  isnan (arithmetic_mean col g) = false.
Proof.
  intros Hne Hall. unfold arithmetic_mean.
  destruct (no_nan_values (map col g)) as (l & El).
  { intros Hin. apply in_map_iff in Hin. destruct Hin as (r & Er & Hr).
    specialize (Hall r Hr). rewrite Er in Hall. discriminate. }
  rewrite El, fsum_map_Some. unfold fdiv.
  rewrite Qeq_bool_false; [reflexivity|].
  apply of_nat_nonzero. destruct g; [congruence | discriminate].
Qed.

(** X15.  No mean of the zonal table is NaN. *)
Theorem reported_means_are_numbers (lc_nodata : option Z)
    (trend_nodata : option float) (excluded : list Z) (df : list row)
    (c : Z) (m : means) :
  In (c, m) (reported (zonal_mean lc_nodata trend_nodata excluded df)) ->
  isnan (SOS_Trend_days_per_year m) = false
  /\ isnan (EOS_Trend_days_per_year m) = false
  /\ isnan (LOS_Trend_days_per_year m) = false.
Proof.
  intros Hin. apply reported_group in Hin. destruct Hin as [Hne ->].
  assert (Hall : forall r, In r (contributing_complete lc_nodata excluded c df)
                           -> complete r = true).
  { intros r Hr. apply filter_In in Hr. destruct Hr as [_ Hr].
    apply andb_prop in Hr. tauto. }
  unfold arithmetic_means. cbn [SOS_Trend_days_per_year EOS_Trend_days_per_year
                                LOS_Trend_days_per_year].
  repeat split; apply arithmetic_mean_number; try exact Hne;
    intros r Hr; specialize (Hall r Hr); unfold complete in Hall;
    destruct (isnan (SOS_Trend r)), (isnan (EOS_Trend r)), (isnan (LOS_Trend r));
    simpl in Hall; congruence.
Qed.

Lemma reported_means_are_numbers_witness :
  isnan (Some (3 # 2)) = false /\ isnan (Some (6 # 2)) = false
  /\ isnan (Some (3 # 2)) = false.
Proof.
  apply (reported_means_are_numbers None (Some nan) non_vegetation
           Samples.raster2x2 1
           (mkMeans (Some (3 # 2)) (Some (6 # 2)) (Some (3 # 2)))).
  vm_compute. left. reflexivity.
Defined.

(** X16.  Cleaning the pixel table gives the same rows whether or not the
    trend raster declares a nodata value, and cleaning twice changes
    nothing more. *)
Theorem clean_stable (lc_nodata : option Z) (t1 t2 : option float)
    (excluded : list Z) (df : list row) :
  clean lc_nodata t1 excluded df = clean lc_nodata t2 excluded df
  /\ clean lc_nodata t1 excluded (clean lc_nodata t2 excluded df)
     = clean lc_nodata t2 excluded df
  /\ zonal_mean lc_nodata t1 excluded df = zonal_mean lc_nodata t2 excluded df.
Proof.
  assert (E : clean lc_nodata t1 excluded df = clean lc_nodata t2 excluded df)
    by now rewrite !clean_filter.
  split; [exact E|]. split.
  - rewrite !clean_filter, filter_filter_and. apply filter_ext.
    intros r. now rewrite andb_diag.
  - unfold zonal_mean. now rewrite E.
Qed.

End ZonalTable.

(** ** From the trend raster to the zonal table *)

Section RasterToTable.
Import Float Zonal.

Lemma slopes_nan_together (records : list Phenology.phenology) (s e l : float) :
  Trend.sos_slope records = Trend.Ok s ->
  Trend.eos_slope records = Trend.Ok e ->
  Trend.los_slope records = Trend.Ok l ->
  isnan e = isnan s /\ isnan l = isnan s.
Proof.
  intros Hs He Hl.
  assert (Hse : isnan e = isnan s).
  { rewrite (pixel_slope_isnan _ _ Hs), (pixel_slope_isnan _ _ He).
    rewrite (masked_nan_positions records).
    unfold Trend.sos_series, Trend.eos_series. now rewrite !length_map. }
  split; [exact Hse|].
  unfold Trend.los_slope in Hl. rewrite Hs, He in Hl. injection Hl as <-.
  destruct e, s; simpl in *; congruence.
Qed.

Lemma trend_row_consistent (lc : Z) (records : list Phenology.phenology) (r : row) :
  trend_row lc records = Some r ->
  isnan (EOS_Trend r) = isnan (SOS_Trend r)
  /\ isnan (LOS_Trend r) = isnan (SOS_Trend r).
Proof.
  unfold trend_row.
  destruct (Trend.sos_slope records) as [s|] eqn:Hs; [|discriminate].
  destruct (Trend.eos_slope records) as [e|] eqn:He; [|discriminate].
  destruct (Trend.los_slope records) as [l|] eqn:Hl; [|discriminate].
  intros [= <-]. cbn [SOS_Trend EOS_Trend LOS_Trend].
  exact (slopes_nan_together records s e l Hs He Hl).
Qed.




End RasterToTable.

(** ** Claims on the zonal means of [analyze_phenology_by_veg.py] *)

Section ZonalClaims.
Import Float Zonal.

(** The table of a trend raster that [analyze_phenology.py] has written
    has its trends NaN together. *)
Lemma trend_rows_nan_together (pixels : list (Z * list Phenology.phenology))
    (df : list row) :
  map (fun p => trend_row (fst p) (snd p)) pixels = map Some df ->
  nan_together df.
Proof.
  intros Hmap r Hr.
  assert (H : In (Some r) (map (fun p => trend_row (fst p) (snd p)) pixels))
    by (rewrite Hmap; now apply in_map).
  apply in_map_iff in H. destruct H as (p & Hp & _).
  exact (trend_row_consistent _ _ _ Hp).
Qed.




End ZonalClaims.

(** ** The zonal table and the loop of the trend tests *)

Section TrendTests.
Import Float TrendTable.

Variable mk_result : Type.
Variable original_test : list float -> mk_result.
Variable p : mk_result -> Q.

Lemma legend_known (k : Z) :
  legend_get k igbp_legend = None <-> ~ (1 <= k <= 17).
Proof.
  split.
  - intros H Hk.
    assert (Hc : k = 1 \/ k = 2 \/ k = 3 \/ k = 4 \/ k = 5 \/ k = 6 \/ k = 7
                 \/ k = 8 \/ k = 9 \/ k = 10 \/ k = 11 \/ k = 12 \/ k = 13
                 \/ k = 14 \/ k = 15 \/ k = 16 \/ k = 17) by lia.
    repeat (destruct Hc as [->|Hc]; [discriminate H|]). subst k. discriminate H.
  - intros Hk. unfold igbp_legend. cbn [legend_get].
    repeat match goal with
           | |- context [?a =? k] =>
               destruct (Z.eqb_spec a k); [exfalso; lia|]
           end.
    reflexivity.
Qed.

Lemma in_unique_veg_types (df : list zonal_row) (k : Z) :
  In k (unique_veg_types df) <-> exists r, In r df /\ veg_type_id r = k.
Proof.
  unfold unique_veg_types. induction df as [|r df IH]; simpl.
  - split; [tauto | intros (r & [] & _)].
  - rewrite in_insert_key, IH. split.
    + intros [->|(r' & Hr' & E)]; [exists r; auto | exists r'; auto].
    + intros (r' & [<-|Hr'] & E); [left; now symmetry | right; exists r'; auto].
Qed.

Lemma length_insert_by_year (r : zonal_row) (l : list zonal_row) :
  length (insert_by_year r l) = S (length l).
Proof.
  induction l as [|h t IH]; simpl; [reflexivity|].
  destruct (year r <=? year h); simpl; [reflexivity | now rewrite IH].
Qed.

Lemma length_sort_values_year (l : list zonal_row) :
  length (sort_values_year l) = length l.
Proof.
  unfold sort_values_year. induction l as [|r l IH]; simpl; [reflexivity|].
  now rewrite length_insert_by_year, IH.
Qed.

Lemma insert_by_year_perm (r : zonal_row) (l : list zonal_row) :
  Permutation (insert_by_year r l) (r :: l).
Proof.
  induction l as [|h t IH]; simpl; [reflexivity|].
  destruct (year r <=? year h); [reflexivity|].
  rewrite IH. apply perm_swap.
Qed.

Lemma sort_values_year_perm (l : list zonal_row) :
  Permutation (sort_values_year l) l.
Proof.
  unfold sort_values_year. induction l as [|r l IH]; simpl; [reflexivity|].
  rewrite insert_by_year_perm. now apply perm_skip.
Qed.

Lemma insert_by_year_sorted (r : zonal_row) (l : list zonal_row) :
  StronglySorted (fun a b => year a <= year b) l ->
  StronglySorted (fun a b => year a <= year b) (insert_by_year r l).
Proof.
  induction l as [|h t IH]; intros Hs; simpl.
  - constructor; constructor.
  - inversion Hs as [|? ? Ht Hall]; subst.
    destruct (Z.leb_spec (year r) (year h)) as [Hle|Hgt].
    + constructor; [exact Hs|]. constructor; [exact Hle|].
      rewrite Forall_forall in Hall |- *. intros x Hx.
      specialize (Hall x Hx). cbv beta in Hall. lia.
    + constructor; [apply IH; exact Ht|].
      rewrite Forall_forall in Hall |- *. intros x Hx.
      apply (Permutation_in _ (insert_by_year_perm r t)) in Hx.
      destruct Hx as [<-|Hx]; [lia | auto].
Qed.

Lemma sort_values_year_sorted (l : list zonal_row) :
  StronglySorted (fun a b => year a <= year b) (sort_values_year l).
Proof.
  unfold sort_values_year. induction l as [|r l IH]; simpl.
  - constructor.
  - apply insert_by_year_sorted, IH.
Qed.

Lemma filter_sorted (f : Z -> bool) (l : list Z) :
  StronglySorted Z.lt l -> StronglySorted Z.lt (filter f l).
Proof.
  induction 1 as [|a l Hl IH Hall]; simpl; [constructor|].
  destruct (f a); [|exact IH]. constructor; [exact IH|].
  rewrite Forall_forall in Hall |- *. intros x Hx.
  apply filter_In in Hx. apply Hall, Hx.
Qed.

Lemma unique_veg_types_sorted (df : list zonal_row) :
  StronglySorted Z.lt (unique_veg_types df).
Proof.
  unfold unique_veg_types. induction (map veg_type_id df) as [|k l IH]; simpl.
  - constructor.
  - apply insert_key_sorted, IH.
Qed.

Lemma analyse_key_error_at (ids : list Z) (df : list zonal_row)
    (acc : list (result_row mk_result)) (k : Z) :
  analyse mk_result original_test p ids df acc = KeyError mk_result k ->
  In k ids /\ legend_get k igbp_legend = None.
Proof.
  revert acc; induction ids as [|c ids IH]; intros acc; cbn [analyse].
  - discriminate.
  - destruct (legend_get c igbp_legend) as [name|] eqn:L.
    + cbv zeta. destruct (length (subset c df) <? 4)%nat; intros H;
        apply IH in H; (split; [right|]; apply H).
    + intros [= <-]. split; [now left | exact L].
Qed.

Lemma analyse_key_error (ids : list Z) (df : list zonal_row)
    (acc : list (result_row mk_result)) :
  (exists k, analyse mk_result original_test p ids df acc = KeyError mk_result k)
  <-> exists k, In k ids /\ legend_get k igbp_legend = None.
Proof.
  revert acc; induction ids as [|c ids IH]; intros acc; cbn [analyse].
  - split; [intros (k & H); discriminate | intros (k & [] & _)].
  - destruct (legend_get c igbp_legend) as [name|] eqn:L.
    + assert (Hrest : (exists k, In k (c :: ids) /\ legend_get k igbp_legend = None)
                      <-> exists k, In k ids /\ legend_get k igbp_legend = None).
      { split; intros (k & Hk & Hn); exists k; (split; [|exact Hn]).
        - destruct Hk as [<-|Hk]; [congruence | exact Hk].
        - now right. }
      rewrite Hrest. cbv zeta.
      destruct (length (subset c df) <? 4)%nat; apply IH.
    + split; [intros _; exists c; split; [now left | exact L]|].
      intros _. exists c. reflexivity.
Qed.

(** X18.  The loop of the trend tests raises a KeyError, and writes no
    result, exactly when the zonal table has a row whose class is outside
    1..17. *)
Theorem main_key_error_iff (df : list zonal_row) :
  (exists k, main mk_result original_test p df = KeyError mk_result k)
  <-> exists r, In r df /\ ~ (1 <= veg_type_id r <= 17).
Proof.
  unfold main. rewrite analyse_key_error. split.
  - intros (k & Hk & Hn). apply in_unique_veg_types in Hk.
    destruct Hk as (r & Hr & <-). exists r. split; [exact Hr|].
    now apply legend_known.
  - intros (r & Hr & Hn). exists (veg_type_id r). split.
    + apply in_unique_veg_types. exists r. auto.
    + now apply legend_known.
Qed.

Lemma analyse_results (ids : list Z) (df : list zonal_row)
    (acc rows : list (result_row mk_result)) :
  analyse mk_result original_test p ids df acc = Results mk_result rows ->
  exists new,
    rows = acc ++ new
    /\ Forall2 (entry_of mk_result original_test p df)
         (filter (fun c => Nat.leb 4 (length (filter (fun r => veg_type_id r =? c) df)))
                 ids)
         new.
Proof.
  revert acc; induction ids as [|c ids IH]; intros acc; cbn [analyse filter].
  - intros [= <-]. exists []. split; [now rewrite app_nil_r | constructor].
  - destruct (legend_get c igbp_legend) as [name|] eqn:L; [|discriminate].
    cbv zeta. unfold subset at 1. rewrite length_sort_values_year.
    destruct (Nat.ltb_spec (length (filter (fun r => veg_type_id r =? c) df)) 4)
      as [Hlt|Hge].
    + replace (Nat.leb 4 _) with false by (symmetry; apply Nat.leb_gt; exact Hlt).
      apply IH.
    + replace (Nat.leb 4 _) with true by (symmetry; apply Nat.leb_le; exact Hge).
      intros H. apply IH in H. destruct H as (new & -> & HF).
      eexists. split; [rewrite <- app_assoc; reflexivity|].
      constructor; [|exact HF].
      unfold entry_of. cbn [Vegetation_Type result Significant].
      split; [exact L|]. split.
      * exists (subset c df). unfold subset.
        split; [apply sort_values_year_perm|].
        split; [apply sort_values_year_sorted | reflexivity].
      * destruct (Qlt_le_dec _ _) as [Hp|Hp]; split; intros H; try assumption;
          try reflexivity; try discriminate. lra.
Qed.

(** X19.  When the loop ends without an error, its results hold one entry
    for each class that has at least four rows in the table and none for
    the others, in strictly ascending order of the class; the entry carries
    the name of the class, the test of the values of all the rows of the
    class in ascending order of the year, whatever their order in the
    table, and the mark "significant" exactly when the p-value is below
    0.05. *)
Theorem main_results (df : list zonal_row) (rows : list (result_row mk_result)) :
  main mk_result original_test p df = Results mk_result rows ->
  Forall2 (entry_of mk_result original_test p df) (tested_classes df) rows
  /\ StronglySorted Z.lt (tested_classes df).
Proof.
  intros H. apply analyse_results in H. destruct H as (new & -> & HF).
  split; [exact HF|]. apply filter_sorted, unique_veg_types_sorted.
Qed.

End TrendTests.

Lemma main_results_witness :
  Forall2 (TrendTable.entry_of (list Float.float) (fun l => l) Samples.count_test
             Samples.zonal_table)
          (TrendTable.tested_classes Samples.zonal_table)
          [ TrendTable.mkResult (list Float.float) "Deciduous Broadleaf Forest"%string
              [Some (50 # 100); Some (52 # 100); None; Some (55 # 100)]%Q false ]
  /\ StronglySorted Z.lt (TrendTable.tested_classes Samples.zonal_table).
Proof.
  apply (main_results (list Float.float) (fun l => l) Samples.count_test
           Samples.zonal_table).
  vm_compute. reflexivity.
Defined.

(** ** From the yearly groups to the zonal table *)

Section ZonalExportRows.
Import Float TrendTable.

Variable groups : Z -> option (list (Z * float)).
Variable mk_result : Type.
Variable original_test : list float -> mk_result.
Variable p : mk_result -> Q.

Lemma rows_of_year (y c : Z) :
  (forall gs, groups y = Some gs -> NoDup (map fst gs)) ->
  length (filter (fun r => veg_type_id r =? c) (calculate_zonal_mean groups y))
  = match groups y with
    | Some gs => if existsb (Z.eqb c) (map fst gs) then 1%nat else 0%nat
    | None => 0%nat
    end.
Proof.
  intros Hnd. unfold calculate_zonal_mean.
  destruct (groups y) as [gs|]; [|reflexivity].
  specialize (Hnd gs eq_refl).
  induction gs as [|[k v] gs IH]; [reflexivity|].
  cbn [map filter existsb veg_type_id fst] in *.
  inversion Hnd as [|? ? Hnotin Hnd']; subst.
  rewrite (Z.eqb_sym c k).
  destruct (Z.eqb_spec k c) as [->|Hne]; cbn [orb length].
  - rewrite (IH Hnd').
    replace (existsb (Z.eqb c) (map fst gs)) with false; [reflexivity|].
    symmetry. destruct (existsb (Z.eqb c) (map fst gs)) eqn:E; [|reflexivity].
    apply existsb_exists in E. destruct E as (x & Hx & Ex).
    apply Z.eqb_eq in Ex. subst x. contradiction.
  - exact (IH Hnd').
Qed.

Lemma rows_of_years (ys : list Z) (c : Z) :
  (forall y gs, groups y = Some gs -> NoDup (map fst gs)) ->
  length (filter (fun r => veg_type_id r =? c)
                 (flat_map (calculate_zonal_mean groups) ys))
  = length (filter (fun y => match groups y with
                             | Some gs => existsb (Z.eqb c) (map fst gs)
                             | None => false
                             end) ys).
Proof.
  intros Hnd. induction ys as [|y ys IH]; [reflexivity|].
  cbn [flat_map filter]. rewrite filter_app, length_app, IH.
  rewrite (rows_of_year y c (Hnd y)).
  destruct (groups y) as [gs|]; [|reflexivity].
  destruct (existsb (Z.eqb c) (map fst gs)); reflexivity.
Qed.

(** X20.  The zonal table holds, for each class, one row per year in which
    the class has a group, and none for a year without data.  Run on that
    table, the loop of the trend tests either stops with a KeyError, at a
    class that has a group in some year and no name in the legend, or
    returns one entry for each class that has a group in at least four of
    the years, and none for the others. *)
Theorem main_tests_classes_of_four_years (start_year end_year : Z) :
  (forall y gs, groups y = Some gs -> NoDup (map fst gs)) ->
  let df := list_of_features groups start_year end_year in
  (forall c, length (filter (fun r => veg_type_id r =? c) df)
             = length (years_with_class groups start_year end_year c))
  /\ match main mk_result original_test p df with
     | KeyError _ k =>
         legend_get k igbp_legend = None
         /\ (1 <= length (years_with_class groups start_year end_year k))%nat
     | Results _ rows =>
         exists classes,
           Forall2 (entry_of mk_result original_test p df) classes rows
           /\ StronglySorted Z.lt classes
           /\ forall c,
                In c classes
                <-> (4 <= length (years_with_class groups start_year end_year c))%nat
     end.
Proof.
  intros Hnd df.
  assert (E : forall c, length (filter (fun r => veg_type_id r =? c) df)
                        = length (years_with_class groups start_year end_year c))
    by (intros c; apply rows_of_years; exact Hnd).
  assert (Hin : forall c, In c (unique_veg_types df)
                          <-> Nat.le 1 (length (filter (fun r => veg_type_id r =? c) df))).
  { intros c. rewrite in_unique_veg_types. split.
    - intros (r & Hr & Hc).
      assert (H : In r (filter (fun r => veg_type_id r =? c) df))
        by (apply filter_In; split; [exact Hr | now apply Z.eqb_eq]).
      destruct (filter _ df); [destruct H | simpl; lia].
    - intros H.
      destruct (filter (fun r => veg_type_id r =? c) df) as [|r l] eqn:F;
        [simpl in H; lia|].
      assert (Hr : In r (filter (fun r => veg_type_id r =? c) df))
        by (rewrite F; now left).
      apply filter_In in Hr. destruct Hr as [Hr Hc].
      exists r. split; [exact Hr | now apply Z.eqb_eq]. }
  split; [exact E|].
  destruct (main mk_result original_test p df) as [rows|k] eqn:M; unfold main in M.
  - apply analyse_results in M. destruct M as (new & -> & HF).
    exists (tested_classes df). split; [exact HF|].
    split; [apply filter_sorted, unique_veg_types_sorted|].
    intros c. unfold tested_classes. rewrite filter_In, Hin, Nat.leb_le, E. lia.
  - apply analyse_key_error_at in M. destruct M as [Hk L].
    split; [exact L|]. rewrite <- E. now apply Hin.
Qed.

End ZonalExportRows.

Lemma main_tests_classes_of_four_years_witness :
  let df := TrendTable.list_of_features Samples.sample_groups 2003 2007 in
  (forall c, length (filter (fun r => TrendTable.veg_type_id r =? c) df)
             = length (TrendTable.years_with_class Samples.sample_groups 2003 2007 c))
  /\ match TrendTable.main (list Float.float) (fun l => l) Samples.count_test df with
     | TrendTable.KeyError _ k =>
         TrendTable.legend_get k TrendTable.igbp_legend = None
         /\ (1 <= length (TrendTable.years_with_class Samples.sample_groups 2003 2007 k))%nat
     | TrendTable.Results _ rows =>
         exists classes,
           Forall2 (TrendTable.entry_of (list Float.float) (fun l => l)
                      Samples.count_test df) classes rows
           /\ StronglySorted Z.lt classes
           /\ forall c,
                In c classes
                <-> (4 <= length (TrendTable.years_with_class
                                    Samples.sample_groups 2003 2007 c))%nat
     end.
Proof.
  apply (main_tests_classes_of_four_years Samples.sample_groups
           (list Float.float) (fun l => l) Samples.count_test 2003 2007).
  intros y gs. unfold Samples.sample_groups.
  destruct (y =? 2005); [discriminate|]. intros [= <-]. simpl.
  constructor; [simpl; intuition lia|]. constructor; [simpl; tauto | constructor].
Defined.

(** ** Filling and smoothing a column *)

Section Preprocessing.
Import Float Preprocess.

Lemma interpolate_from_shape (prev : option (Q * nat)) (l : list float) :
  Forall2 (fun a b => a = b \/ a = nan) l (interpolate_from prev l).
Proof.
  revert prev; induction l as [|[v|] r IH]; intros prev; cbn [interpolate_from];
    constructor; auto.
Qed.

Lemma next_valid_in (l : list float) (k : nat) (w : Q) :
  next_valid l = Some (k, w) -> In (Some w) l.
Proof.
  revert k; induction l as [|[v|] r IH]; intros k; cbn [next_valid].
  - discriminate.
  - intros [= _ ->]. now left.
  - destruct (next_valid r) as [[k' w']|]; [|discriminate].
    intros [= _ <-]. right. eapply IH. reflexivity.
Qed.

Lemma next_valid_none (l : list float) :
  next_valid l = None -> forall v, ~ In (Some v) l.
Proof.
  induction l as [|[v|] r IH]; cbn [next_valid]; intros H w Hin.
  - destruct Hin.
  - discriminate.
  - destruct (next_valid r) as [[k' w']|]; [discriminate|].
    destruct Hin as [Hin|Hin]; [discriminate | exact (IH eq_refl w Hin)].
Qed.

Lemma interpolate_from_no_nan (prev : option (Q * nat)) (l : list float) :
  prev <> None \/ next_valid l <> None ->
  ~ In nan (interpolate_from prev l).
Proof.
  revert prev; induction l as [|[v|] r IH]; intros prev H; cbn [interpolate_from].
  - intros [].
  - intros [Hin|Hin]; [discriminate|].
    revert Hin. apply IH. left. discriminate.
  - destruct prev as [[v d]|].
    + intros [Hin|Hin].
      * destruct (next_valid r) as [[k w]|]; discriminate.
      * revert Hin. apply IH. left. discriminate.
    + destruct H as [H|H]; [congruence|]. cbn [next_valid] in H.
      destruct (next_valid r) as [[k w]|] eqn:N; [|now elim H].
      intros [Hin|Hin]; [discriminate|].
      revert Hin. apply IH. right. rewrite ?N. discriminate.
Qed.

Lemma of_nat_nonneg (n : nat) : (0 <= of_nat n)%Q.
Proof. unfold of_nat, Qle. simpl. lia. Qed.

Lemma of_nat_le (n m : nat) : (n <= m)%nat -> (of_nat n <= of_nat m)%Q.
Proof. intros H. unfold of_nat, Qle. simpl. lia. Qed.

(** A point of the line between two values lies between them. *)
Lemma on_the_line (lo hi v w : Q) (d k : nat) :
  (lo <= v <= hi)%Q -> (lo <= w <= hi)%Q ->
  (lo <= (w - v) / of_nat (d + k + 1) * of_nat d + v <= hi)%Q.
Proof.
  intros Hv Hw.
  assert (Hg : (0 < of_nat (d + k + 1))%Q).
  { unfold of_nat, Qlt. simpl. lia. }
  set (t := (of_nat d / of_nat (d + k + 1))%Q).
  assert (Ht0 : (0 <= t)%Q).
  { unfold t. apply Qle_shift_div_l; [exact Hg|].
    pose proof (of_nat_nonneg d). lra. }
  assert (Ht1 : (t <= 1)%Q).
  { unfold t. apply Qle_shift_div_r; [exact Hg|].
    pose proof (of_nat_le d (d + k + 1)). rewrite Qmult_1_l. apply H. lia. }
  setoid_replace ((w - v) / of_nat (d + k + 1) * of_nat d + v)%Q
    with (t * w + (1 - t) * v)%Q
    by (unfold t; field; intros E; rewrite E in Hg; apply (Qlt_irrefl 0 Hg)).
  assert (H1 : (0 <= t * (w - lo))%Q) by (apply Qmult_le_0_compat; lra).
  assert (H2 : (0 <= (1 - t) * (v - lo))%Q) by (apply Qmult_le_0_compat; lra).
  assert (H3 : (0 <= t * (hi - w))%Q) by (apply Qmult_le_0_compat; lra).
  assert (H4 : (0 <= (1 - t) * (hi - v))%Q) by (apply Qmult_le_0_compat; lra).
  split.
  - setoid_replace (t * w + (1 - t) * v)%Q
      with (lo + (t * (w - lo) + (1 - t) * (v - lo)))%Q by ring. lra.
  - setoid_replace (t * w + (1 - t) * v)%Q
      with (hi - (t * (hi - w) + (1 - t) * (hi - v)))%Q by ring. lra.
Qed.

Lemma interpolate_from_bounds (lo hi : Q) (prev : option (Q * nat)) (l : list float) :
  (forall v, In (Some v) l -> (lo <= v <= hi)%Q) ->
  (forall v d, prev = Some (v, d) -> (lo <= v <= hi)%Q) ->
  forall q, In (Some q) (interpolate_from prev l) -> (lo <= q <= hi)%Q.
Proof.
  revert prev; induction l as [|[v|] r IH]; intros prev Hl Hp q;
    cbn [interpolate_from].
  - intros [].
  - intros [[= <-]|Hin]; [apply Hl; now left|].
    apply (IH (Some (v, 1%nat))); [| |exact Hin].
    + intros w Hw. apply Hl. now right.
    + intros ? ? [= <- _]. apply Hl. now left.
  - intros [Hq|Hin].
    + revert Hq.
      destruct prev as [[v d]|], (next_valid r) as [[k w]|] eqn:N;
        intros Hq; try discriminate; injection Hq as <-.
      * apply on_the_line; [eapply Hp; reflexivity|].
        apply Hl. right. exact (next_valid_in _ _ _ N).
      * eapply Hp. reflexivity.
      * apply Hl. right. exact (next_valid_in _ _ _ N).
    + revert Hin. apply IH.
      * intros w Hw. apply Hl. now right.
      * intros v d E. destruct prev as [[v' d']|]; [|discriminate].
        injection E as <- _. eapply Hp. reflexivity.
Qed.

Lemma forall2_same (l l' : list float) :
  Forall2 (fun a b => a = b \/ a = nan) l l' -> ~ In nan l -> l' = l.
Proof.
  induction 1 as [|a b l l' Hab _ IH]; intros Hn; [reflexivity|].
  f_equal.
  - destruct Hab as [->| ->]; [reflexivity|]. exfalso. apply Hn. now left.
  - apply IH. intros Hin. apply Hn. now right.
Qed.

Lemma fill_missing_interpolate (col : list float) :
  fill_missing col = interpolate col.
Proof.
  unfold fill_missing. destruct (existsb isnan col) eqn:E; [reflexivity|].
  symmetry. apply forall2_same; [apply interpolate_from_shape|].
  intros Hin. assert (existsb isnan col = true)
    by (apply existsb_exists; exists nan; auto). congruence.
Qed.

(** X21.  Filling a column changes only its NaN entries: every value stays
    where it is, the length is kept, and the guard on "any NaN" changes
    nothing.  If the column holds at least one value, no NaN is left. *)
Theorem fill_missing_keeps_values (col : list float) :
  Forall2 (fun a b => a = b \/ a = nan) col (fill_missing col)
  /\ length (fill_missing col) = length col
  /\ ((exists v, In (Some v) col) -> ~ In nan (fill_missing col)).
Proof.
  rewrite fill_missing_interpolate.
  pose proof (interpolate_from_shape None col) as HF.
  split; [exact HF|]. split.
  - symmetry. exact (Forall2_length HF).
  - intros (v & Hv). apply interpolate_from_no_nan. right.
    intros N. exact (next_valid_none col N v Hv).
Qed.

(** X22.  Filling never overshoots: every value of the filled column lies
    between the smallest and the largest value of the column. *)
Theorem fill_missing_within_range (lo hi : Q) (col : list float) (q : Q) :
  (forall v, In (Some v) col -> (lo <= v <= hi)%Q) ->
  In (Some q) (fill_missing col) ->
  (lo <= q <= hi)%Q.
Proof.
  intros Hcol. rewrite fill_missing_interpolate.
  apply interpolate_from_bounds; [exact Hcol | discriminate].
Qed.

Lemma fill_missing_within_range_witness :
  (2 # 10 <= 1200 # 3000 <= 8 # 10)%Q.
Proof.
  apply (fill_missing_within_range (2 # 10) (8 # 10) Samples.gappy_column).
  - intros v Hv. simpl in Hv.
    repeat (destruct Hv as [Hv|Hv]; [try discriminate Hv; injection Hv as <-;
                                     unfold Qle; simpl; lia|]).
    destruct Hv.
  - vm_compute. tauto.
Defined.

Variable savgol_values : list float -> list float.
Variable savgol_mixed : list float -> Trend.result (list float).

Lemma clip_range (upper : option Q) (v : float) (q : Q) :
  (forall u, upper = Some u -> (0 <= u)%Q) ->
  clip 0 upper v = Some q ->
  (0 <= q)%Q /\ (forall u, upper = Some u -> (q <= u)%Q).
Proof.
  intros Hu. unfold clip. destruct v as [x|]; [|discriminate].
  destruct upper as [u|].
  - specialize (Hu u eq_refl).
    destruct (Qlt_le_dec x 0), (Qlt_le_dec u _); intros [= <-];
      (split; [lra | intros ? [= <-]; lra]).
  - destruct (Qlt_le_dec x 0); intros [= <-]; (split; [lra | discriminate]).
Qed.

(** A column without any value is left as it is. *)
Lemma interpolate_from_all_nan (l : list float) :
  (forall v, In v l -> v = nan) -> interpolate_from None l = l.
Proof.
  induction l as [|v l IH]; intros H; [reflexivity|].
  assert (Hl : forall w, In w l -> w = nan) by (intros w Hw; apply H; now right).
  rewrite (H v (or_introl eq_refl)). unfold nan. cbn [interpolate_from].
  assert (N : next_valid l = None).
  { clear IH H. induction l as [|w l IHl]; [reflexivity|].
    rewrite (Hl w (or_introl eq_refl)). unfold nan. cbn [next_valid].
    rewrite IHl; [reflexivity|]. intros u Hu. apply Hl. now right. }
  rewrite N, (IH Hl). reflexivity.
Qed.

Lemma forallb_isnan_all (l : list float) :
  (forall v, In v l -> v = nan) -> forallb isnan l = true.
Proof.
  intros H. apply forallb_forall. intros v Hv. now rewrite (H v Hv).
Qed.

Lemma no_nan_checks (l : list float) :
  l <> [] -> ~ In nan l -> forallb isnan l = false /\ existsb isnan l = false.
Proof.
  intros Hne Hno. split.
  - destruct l as [|[q|] l]; [congruence | reflexivity|].
    exfalso. apply Hno. now left.
  - destruct (existsb isnan l) eqn:E; [|reflexivity].
    apply existsb_exists in E. destruct E as ([q|] & Hin & Hq); [discriminate|].
    exfalso. exact (Hno Hin).
Qed.

(** X23.  A column of fewer than seven rows stops the preprocessing with a
    ValueError, and so does a column of seven rows or more that holds no
    value at all: filling leaves it as it is, and the filter refuses it.  A
    column of seven rows or more with at least one value reaches the filter
    without a NaN, and whatever values the filter returns, every smoothed
    value that is written is at least 0, and at most 1 for NDVI and EVI; a
    NaN of the filter stays a NaN. *)
Theorem preprocess_range (col_name : string) (col : list float) :
  ((length col < 7)%nat ->
   exists msg,
     preprocess savgol_values savgol_mixed col_name col = Trend.ValueError msg)
  /\ ((7 <= length col)%nat -> (forall v, In v col -> v = nan) ->
      preprocess savgol_values savgol_mixed col_name col
      = Trend.ValueError "array must not contain infs or NaNs")
  /\ ((7 <= length col)%nat -> (exists v, In (Some v) col) ->
      ~ In nan (fill_missing col)
      /\ exists y,
           preprocess savgol_values savgol_mixed col_name col = Trend.Ok y
           /\ y = map (clip 0 (if existsb (String.eqb col_name) ["NDVI"; "EVI"]%string
                               then Some 1%Q else None))
                      (savgol_values (fill_missing col))
           /\ (forall q, In (Some q) y ->
                 (0 <= q)%Q
                 /\ (col_name = "NDVI"%string \/ col_name = "EVI"%string -> (q <= 1)%Q))
           /\ (In nan y <-> In nan (savgol_values (fill_missing col)))).
Proof.
  assert (Hlen : length (fill_missing col) = length col).
  { rewrite fill_missing_interpolate. symmetry.
    exact (Forall2_length (interpolate_from_shape None col)). }
  unfold preprocess, smoothed, savgol_filter, window_length. rewrite Hlen.
  split; [|split].
  - intros H. apply Nat.ltb_lt in H. rewrite H. eexists. reflexivity.
  - intros H Hall.
    replace (length col <? 7)%nat with false by (symmetry; apply Nat.ltb_ge; exact H).
    rewrite fill_missing_interpolate. unfold interpolate.
    rewrite (interpolate_from_all_nan col Hall), (forallb_isnan_all col Hall).
    reflexivity.
  - intros H (v & Hv).
    replace (length col <? 7)%nat with false by (symmetry; apply Nat.ltb_ge; exact H).
    assert (Hno : ~ In nan (fill_missing col)).
    { rewrite fill_missing_interpolate. apply interpolate_from_no_nan. right.
      intros N. exact (next_valid_none col N v Hv). }
    assert (Hne : fill_missing col <> []).
    { intros E. rewrite E in Hlen. simpl in Hlen. lia. }
    destruct (no_nan_checks _ Hne Hno) as [F X]. rewrite F, X.
    split; [exact Hno|].
    set (y0 := savgol_values (fill_missing col)).
    assert (Hnan : forall up, In nan (map (clip 0 up) y0) <-> In nan y0).
    { intros up. rewrite in_map_iff. split.
      - intros (w & Hw & Hin). destruct w as [x|]; [|exact Hin].
        unfold clip in Hw. destruct up; discriminate.
      - intros Hin. exists nan. split; [reflexivity | exact Hin]. }
    destruct (existsb (String.eqb col_name) ["NDVI"; "EVI"]%string) eqn:E.
    + eexists. split; [reflexivity|]. split; [reflexivity|]. split; [|apply Hnan].
      intros q Hq. apply in_map_iff in Hq. destruct Hq as (w & Hw & _).
      apply clip_range in Hw; [|intros u [= <-]; lra].
      destruct Hw as [H0 H1]. split; [exact H0|]. intros _. now apply H1.
    + eexists. split; [reflexivity|]. split; [reflexivity|]. split; [|apply Hnan].
      intros q Hq. apply in_map_iff in Hq. destruct Hq as (w & Hw & _).
      apply clip_range in Hw; [|discriminate].
      destruct Hw as [H0 _]. split; [exact H0|].
      intros [->| ->]; discriminate E.
Qed.

End Preprocessing.

(** ** The monthly cells of download_gee_data.py *)

Section MonthlyCells.
Import Monthly.

Variable image : Type.
Variable when : image -> date.

Lemma in_sequence_Z (first last k : Z) :
  In k (TrendTable.sequence first last) <-> first <= k <= last.
Proof.
  unfold TrendTable.sequence. rewrite in_map_iff. split.
  - intros (n & <- & Hn). apply in_seq in Hn. lia.
  - intros Hk. exists (Z.to_nat (k - first)). split; [lia|]. apply in_seq. lia.
Qed.

Lemma in_year_months (y m : Z) :
  In (y, m) year_months <-> 2003 <= y <= 2023 /\ 1 <= m <= 12.
Proof.
  unfold year_months, years, months. rewrite in_flat_map. split.
  - intros (y' & Hy & Hm). apply in_map_iff in Hm.
    destruct Hm as (m' & [= <- <-] & Hm).
    apply in_sequence_Z in Hy, Hm. simpl in Hy. lia.
  - intros [Hy Hm]. exists y. split; [apply in_sequence_Z; simpl; lia|].
    apply in_map_iff. exists m. split; [reflexivity|].
    apply in_sequence_Z. lia.
Qed.

Lemma date_ltb_spec (a b : date) :
  date_ltb a b = true
  <-> dyear a < dyear b
      \/ (dyear a = dyear b
          /\ (dmonth a < dmonth b \/ (dmonth a = dmonth b /\ dday a < dday b))).
Proof.
  unfold date_ltb.
  rewrite !orb_true_iff, !andb_true_iff, !orb_true_iff, !andb_true_iff,
    !Z.ltb_lt, !Z.eqb_eq. reflexivity.
Qed.

Lemma date_leb_spec (a b : date) :
  date_leb a b = true
  <-> dyear a < dyear b
      \/ (dyear a = dyear b
          /\ (dmonth a < dmonth b \/ (dmonth a = dmonth b /\ dday a <= dday b))).
Proof.
  unfold date_leb. rewrite negb_true_iff, <- not_true_iff_false, date_ltb_spec. lia.
Qed.

(** X24.  An image with a calendar date lies in the monthly collection of a
    year and month of the run exactly when that is its own year and month
    and it is dated before the last day of the period: no image is averaged
    into two months, and the images of the last day, 2023-12-31, into
    none. *)
Theorem monthly_cells_partition (raw : list image) (img : image) (y m : Z) :
  calendar (when img) ->
  In (y, m) year_months ->
  In img (monthly_collection_for_period image when raw y m)
  <-> In img raw
      /\ dyear (when img) = y /\ dmonth (when img) = m
      /\ date_ltb (when img) end_date = true.
Proof.
  intros [Hmonth Hday] Hym. apply in_year_months in Hym.
  unfold monthly_collection_for_period, collection, filterDate.
  rewrite !filter_In, !andb_true_iff, !date_leb_spec, !date_ltb_spec.
  unfold advance_month, fromYMD, start_date, end_date. cbn [dyear dmonth dday].
  destruct (Z.eqb_spec m 12) as [->|Hm12]; cbn [dyear dmonth dday];
    (split; intros H; repeat split; first [tauto | lia]).
Qed.

End MonthlyCells.

Lemma monthly_cells_partition_witness :
  In (Monthly.mkDate 2010 12 19)
     (Monthly.monthly_collection_for_period Monthly.date (fun d => d)
        [Monthly.mkDate 2010 12 3; Monthly.mkDate 2010 12 19;
         Monthly.mkDate 2023 12 31] 2010 12)
  <-> In (Monthly.mkDate 2010 12 19)
         [Monthly.mkDate 2010 12 3; Monthly.mkDate 2010 12 19;
          Monthly.mkDate 2023 12 31]
      /\ 2010 = 2010 /\ 12 = 12
      /\ Monthly.date_ltb (Monthly.mkDate 2010 12 19) Monthly.end_date = true.
Proof.
  apply (monthly_cells_partition Monthly.date (fun d => d)
           [Monthly.mkDate 2010 12 3; Monthly.mkDate 2010 12 19;
            Monthly.mkDate 2023 12 31]
           (Monthly.mkDate 2010 12 19) 2010 12).
  - unfold Monthly.calendar. simpl. lia.
  - vm_compute. tauto.
Defined.
